(** * fortio.org/assert: assertion helpers and the suite runner

    A shallow embedding of [assert.go].  The helpers are modelled as
    functions into a small writer/outcome monad whose events are the calls
    they make to their collaborators ([fmt.Printf], [t.Fail], [t.FailNow]);
    the suite runner threads the suite value through the hooks and the
    test methods it calls. *)

From Stdlib Require Import List String Ascii ZArith Bool Lia.
Import ListNotations.
Open Scope string_scope.
Open Scope Z_scope.
Open Scope list_scope.
Set Warnings "-register-all".

(** ** The host: testing.T *)

Module testing.

(** A [*testing.T].  The testing package identifies a (sub-)test by its
    name and its parent; [t.Run] creates the child handle. *)
Inductive T : Type :=
| TopT (name : string)
| SubT (parent : T) (name : string).

Fixpoint T_eqb (x y : T) : bool :=
  match x, y with
  | TopT n1, TopT n2 => String.eqb n1 n2
  | SubT p1 n1, SubT p2 n2 => String.eqb n1 n2 && T_eqb p1 p2
  | _, _ => false
  end.

(** [h] is [t] itself or one of the tests above it. *)
Fixpoint self_or_ancestor (h t : T) : bool :=
  T_eqb h t ||
  match t with
  | SubT p _ => self_or_ancestor h p
  | TopT _ => false
  end.

End testing.

(** ** Go values held in an [interface{}] *)

Module Go.

(** Dynamic types of the fragment: basic types, pointers, slices, named
    structs and functions. *)
Inductive type : Type :=
| Bool
| Int
| Int64
| String
| Pointer (elem : type)
| Slice (elem : type)
| Struct (name : string) (fields : list type)
| Func.

Fixpoint type_eqb (x y : type) : bool :=
  match x, y with
  | Bool, Bool | Int, Int | Int64, Int64 | String, String | Func, Func => true
  | Pointer a, Pointer b => type_eqb a b
  | Slice a, Slice b => type_eqb a b
  | Struct n1 f1, Struct n2 f2 =>
      String.eqb n1 n2 &&
      (fix all2 (l1 l2 : list type) : bool :=
         match l1, l2 with
         | [], [] => true
         | a :: l1', b :: l2' => type_eqb a b && all2 l1' l2'
         | _, _ => false
         end) f1 f2
  | _, _ => false
  end.

(** The language's notion of a comparable type: slices and functions are
    not, a struct is when all its fields are. *)
Fixpoint comparable (ty : type) : bool :=
  match ty with
  | Slice _ | Func => false
  | Struct _ fields =>
      (fix all (l : list type) : bool :=
         match l with
         | [] => true
         | a :: l' => comparable a && all l'
         end) fields
  | _ => true
  end.

(** An address: the identity of an allocation. *)
Definition addr := nat.

(** A value of one of those types.  A pointer is nil or an address with
    the value stored there; a slice is nil or the address of its backing
    array with its elements. *)
Inductive value : Type :=
| VBool (b : bool)
| VInt (n : Z)
| VInt64 (n : Z)
| VString (s : string)
| VPointer (elem : type) (target : option (addr * value))
| VSlice (elem : type) (data : option (addr * list value))
| VStruct (name : string) (fields : list value)
| VFunc (code : option addr).

(** [reflect.TypeOf]. *)
Fixpoint TypeOf (v : value) : type :=
  match v with
  | VBool _ => Bool
  | VInt _ => Int
  | VInt64 _ => Int64
  | VString _ => String
  | VPointer e _ => Pointer e
  | VSlice e _ => Slice e
  | VStruct n fields => Struct n (map TypeOf fields)
  | VFunc _ => Func
  end.

(** An [interface{}]: nil, or a dynamic value. *)
Definition iface := option value.

(** [==] on two values of one comparable type: basic values by value,
    pointers by address, structs field by field. *)
Fixpoint valueEq (x y : value) : bool :=
  match x, y with
  | VBool a, VBool b => Bool.eqb a b
  | VInt a, VInt b => Z.eqb a b
  | VInt64 a, VInt64 b => Z.eqb a b
  | VString a, VString b => String.eqb a b
  | VPointer _ p, VPointer _ q =>
      match p, q with
      | None, None => true
      | Some (a, _), Some (b, _) => Nat.eqb a b
      | _, _ => false
      end
  | VStruct _ f1, VStruct _ f2 =>
      (fix all2 (l1 l2 : list value) : bool :=
         match l1, l2 with
         | [], [] => true
         | a :: l1', b :: l2' => valueEq a b && all2 l1' l2'
         | _, _ => false
         end) f1 f2
  | _, _ => false
  end.

(** [a == b] on interface values.  [None] is the run-time panic
    "comparing uncomparable type": identical dynamic types that are not
    comparable. *)
Definition ifaceEq (a b : iface) : option bool :=
  match a, b with
  | None, None => Some true
  | None, Some _ | Some _, None => Some false
  | Some x, Some y =>
      if type_eqb (TypeOf x) (TypeOf y)
      then if comparable (TypeOf x) then Some (valueEq x y) else None
      else Some false
  end.

(** The recursive part of [reflect.DeepEqual], on two values of one type. *)
Fixpoint deepValueEqual (x y : value) : bool :=
  match x, y with
  | VBool a, VBool b => Bool.eqb a b
  | VInt a, VInt b => Z.eqb a b
  | VInt64 a, VInt64 b => Z.eqb a b
  | VString a, VString b => String.eqb a b
  | VPointer _ p, VPointer _ q =>
      match p, q with
      | None, None => true
      | Some (a, v), Some (b, w) => Nat.eqb a b || deepValueEqual v w
      | _, _ => false
      end
  | VSlice _ d1, VSlice _ d2 =>
      match d1, d2 with
      | None, None => true
      | Some (a, l1), Some (b, l2) =>
          Nat.eqb (List.length l1) (List.length l2) &&
          (Nat.eqb a b ||
           (fix all2 (l1 l2 : list value) : bool :=
              match l1, l2 with
              | [], [] => true
              | v :: l1', w :: l2' => deepValueEqual v w && all2 l1' l2'
              | _, _ => false
              end) l1 l2)
      | _, _ => false
      end
  | VStruct _ f1, VStruct _ f2 =>
      (fix all2 (l1 l2 : list value) : bool :=
         match l1, l2 with
         | [], [] => true
         | v :: l1', w :: l2' => deepValueEqual v w && all2 l1' l2'
         | _, _ => false
         end) f1 f2
  | VFunc c1, VFunc c2 =>
      match c1, c2 with
      | None, None => true
      | _, _ => false
      end
  | _, _ => false
  end.

(** [reflect.DeepEqual]: a nil interface equals only a nil interface,
    values of distinct types are never deeply equal. *)
Definition DeepEqual (a b : iface) : bool :=
  match a, b with
  | None, None => true
  | None, Some _ | Some _, None => false
  | Some x, Some y =>
      type_eqb (TypeOf x) (TypeOf y) && deepValueEqual x y
  end.

End Go.

(** ** strings *)

Module strings.

(** [strings.LastIndex s sub], counted from offset [i]: the index of the
    last occurrence of [sub], or -1. *)
Fixpoint LastIndex_from (i : Z) (s sub : string) : Z :=
  match s with
  | EmptyString => if String.eqb sub "" then i else -1
  | String.String _ s' =>
      let r := LastIndex_from (i + 1) s' sub in
      if 0 <=? r then r else if String.prefix sub s then i else -1
  end.

Definition LastIndex (s sub : string) : Z := LastIndex_from 0 s sub.

(** [strings.Contains]. *)
Fixpoint Contains (s substr : string) : bool :=
  String.prefix substr s ||
  match s with
  | EmptyString => false
  | String.String _ s' => Contains s' substr
  end.

(** [s] without its first [i] bytes. *)
Definition cut (s : string) (i : Z) : string :=
  String.substring (Z.to_nat i) (String.length s - Z.to_nat i)%nat s.

(** The slice expression [s[i:]]: outside [0 <= i <= len(s)] it panics
    ([None]). *)
Definition slice_from (s : string) (i : Z) : option string :=
  if (0 <=? i) && (i <=? Z.of_nat (String.length s))
  then Some (cut s i)
  else None.

End strings.

Arguments strings.cut : simpl never.
Arguments strings.LastIndex : simpl never.
Arguments strings.slice_from : simpl never.

(** ** Effects of a call *)

(** An operand of [fmt.Printf] or [fmt.Sprintf], kept as given: how a verb
    renders it is the fmt package's business. *)
Inductive arg : Type :=
| AString (s : string)
| AInt (n : Z)
| AIface (v : Go.iface)
| AStrings (msg : list string)
| ASprintf (format : string) (args : list arg).

(** What the suite runner calls. *)
Inductive callee : Type :=
| SetupTest
| TearDownTest
| SubTest (t : testing.T) (name : string).

(** How a call ends: it returns, the goroutine exits ([runtime.Goexit],
    reached through [FailNow] on [t]), or it panics. *)
Inductive outcome : Type :=
| Return
| Goexit (t : testing.T)
| Panic (reason : string).

(** The calls a function makes to its collaborators, in order.  A [Call]
    is one made by the suite runner: [bound] is what the suite's [T()]
    returns when the callee is entered, [inner] what the callee does,
    [ended] how the call ends for the runner, and [left] what [T()]
    returns when the callee is left. *)
Inductive event : Type :=
| Printf (format : string) (args : list arg)
| TFail (t : testing.T)
| TFailNow (t : testing.T)
| Call (c : callee) (bound : option testing.T) (inner : list event)
       (ended : outcome) (left : option testing.T).

Definition result : Type := list event * outcome.

Definition events (r : result) : list event := fst r.
Definition ending (r : result) : outcome := snd r.

(** Nothing happens. *)
Definition done : result := ([], Return).

(** Statement sequencing: the second statement runs only when the first
    returns. *)
Definition andThen (r k : result) : result :=
  match ending r with
  | Return => (events r ++ events k, ending k)
  | _ => r
  end.

(** [t.Fail()] or [t.FailNow()] was called on [t]. *)
Definition marks_failed (t : testing.T) (e : event) : bool :=
  match e with
  | TFail h | TFailNow h => testing.T_eqb h t
  | _ => false
  end.

Definition reports_failure (t : testing.T) (r : result) : bool :=
  existsb (marks_failed t) (events r).

Definition is_FailNow (e : event) : bool :=
  match e with TFailNow _ => true | _ => false end.

Definition is_Fail (e : event) : bool :=
  match e with TFail _ => true | _ => false end.

Definition panics (r : result) : bool :=
  match ending r with Panic _ => true | _ => false end.

(** A method called through a nil pointer reads a field of it. *)
Definition nil_dereference : string :=
  "runtime error: invalid memory address or nil pointer dereference".

(** [t.Fail()], for [t] a [*testing.T]: nil or a handle. *)
Definition T_Fail (t : option testing.T) : result :=
  match t with
  | Some h => ([TFail h], Return)
  | None => ([], Panic nil_dereference)
  end.

(** [t.FailNow()]. *)
Definition T_FailNow (t : option testing.T) : result :=
  match t with
  | Some h => ([TFailNow h], Goexit h)
  | None => ([], Panic nil_dereference)
  end.

(** ** runtime.Caller *)

Module runtime.

(** A frame of the goroutine's stack: the file and line the function in
    that frame is executing. *)
Definition frame : Type := string * Z.

(** The stack, innermost frame first. *)
Definition stack : Type := list frame.

(** [runtime.Caller(skip)], called with the stack [st] whose first frame
    is the calling function itself: file and line of the frame [skip]
    levels up, or the zero values when there is none. *)
Definition Caller (skip : nat) (st : stack) : string * Z :=
  nth skip st ("", 0).

End runtime.

(** ** reflect and regexp, as far as the runner uses them *)

Module reflect.

(** A [reflect.Method] of the suite's type: its name, how many parameters
    and results it has besides the receiver, whether the last parameter
    is variadic, and [method.Func] as it runs when called with the
    receiver alone (code of type [B]; it is only ever run for a method
    that can be called so). *)
Record Method (B : Type) : Type := mkMethod {
  Name : string;
  NumIn : nat;
  NumOut : nat;
  IsVariadic : bool;
  Func : B
}.

Arguments mkMethod {B}.
Arguments Name {B}.
Arguments NumIn {B}.
Arguments NumOut {B}.
Arguments IsVariadic {B}.
Arguments Func {B}.

(** [reflect.Value.Call] accepts the receiver as the only argument when
    the method has no parameter of its own, or none but a variadic
    one. *)
Definition takes_receiver_alone {B : Type} (m : Method B) : bool :=
  if IsVariadic m then Nat.leb (NumIn m) 1 else Nat.eqb (NumIn m) 0.

End reflect.

Module regexp.

(** [regexp.MatchString("^" + lit, s)] for a literal [lit] without
    metacharacters: [s] begins with [lit]. *)
Definition MatchString_anchored (lit s : string) : bool :=
  String.prefix lit s.

End regexp.

(** ** The package (assert.go) *)

Module assert.

(** The path assert.go is compiled from. *)
Definition assert_go : string := "/go/pkg/mod/fortio.org/assert/assert.go".

(** The frame of a function of this package that is at line [line], on top
    of its callers' frames [cs]. *)
Definition at_line (line : Z) (cs : runtime.stack) : runtime.stack :=
  (assert_go, line) :: cs.

Definition nl : string := String.String "010"%char "".

(** [file[strings.LastIndex(file, "/")+1:]]. *)
Definition base_name (file : string) : option string :=
  strings.slice_from file (strings.LastIndex file "/" + 1).

Definition out_of_range : result :=
  ([], Panic "runtime error: slice bounds out of range").

Definition ObjectsAreEqualValues (a b : Go.iface) : bool :=
  Go.DeepEqual a b.

(** In every helper, [cs] is the stack of the caller: its first frame is
    the call site; [t] is the [*testing.T] it is given, nil or a
    handle. *)
Definition Errorf (cs : runtime.stack) (t : option testing.T)
    (format : string) (rest : list arg) : result :=
  let '(file, line) := runtime.Caller 2 (at_line 22 cs) in
  match base_name file with
  | None => out_of_range
  | Some file =>
      andThen ([Printf "%s:%d %s" [AString file; AInt line; ASprintf format rest]], Return)
              (T_Fail t)
  end.

Definition NotEqual (cs : runtime.stack) (t : option testing.T)
    (a b : Go.iface) (msg : list string) : result :=
  if ObjectsAreEqualValues a b
  then Errorf (at_line 31 cs) t "%v unexpectedly equal: %v" [AIface a; AStrings msg]
  else done.

Definition EqualValues (cs : runtime.stack) (t : option testing.T)
    (a b : Go.iface) (msg : list string) : result :=
  if negb (ObjectsAreEqualValues a b)
  then Errorf (at_line 38 cs) t "%v unexpectedly not equal %v: %v"
              [AIface a; AIface b; AStrings msg]
  else done.

Definition Equal (cs : runtime.stack) (t : option testing.T)
    (a b : Go.iface) (msg : list string) : result :=
  EqualValues (at_line 44 cs) t a b msg.

(** An [error] is an interface value; [err != nil] tests the interface. *)
Definition isNil (err : Go.iface) : bool :=
  match err with None => true | Some _ => false end.

Definition NoError (cs : runtime.stack) (t : option testing.T)
    (err : Go.iface) (msg : list string) : result :=
  if negb (isNil err)
  then Errorf (at_line 50 cs) t "expecting no error, got %v: %v" [AIface err; AStrings msg]
  else done.

Definition Error (cs : runtime.stack) (t : option testing.T)
    (err : Go.iface) (msg : list string) : result :=
  if isNil err
  then Errorf (at_line 57 cs) t "expecting an error, didn't get it: %v" [AStrings msg]
  else done.

Definition True (cs : runtime.stack) (t : option testing.T)
    (b : bool) (msg : list string) : result :=
  if negb b
  then Errorf (at_line 64 cs) t "expecting true, didn't: %v" [AStrings msg]
  else done.

Definition False (cs : runtime.stack) (t : option testing.T)
    (b : bool) (msg : list string) : result :=
  if b
  then Errorf (at_line 71 cs) t "expecting false, didn't: %v" [AStrings msg]
  else done.

Definition Contains (cs : runtime.stack) (t : option testing.T)
    (haystack needle : string) (msg : list string) : result :=
  if negb (strings.Contains haystack needle)
  then Errorf (at_line 78 cs) t "%v doesn't contain %v: %v"
              [AString haystack; AString needle; AStrings msg]
  else done.

Definition Fail (cs : runtime.stack) (t : option testing.T) (msg : string) : result :=
  let '(file, line) := runtime.Caller 1 (at_line 84 cs) in
  match base_name file with
  | None => out_of_range
  | Some file =>
      andThen ([Printf ("%s:%d %s" ++ nl)%string [AString file; AInt line; AString msg]], Return)
              (T_FailNow t)
  end.

Definition CheckEquals (cs : runtime.stack) (t : option testing.T)
    (actual expected msg : Go.iface) : result :=
  match Go.ifaceEq expected actual with
  | None => ([], Panic "runtime error: comparing uncomparable type")
  | Some false =>
      let '(file, line) := runtime.Caller 1 (at_line 94 cs) in
      match base_name file with
      | None => out_of_range
      | Some file =>
          andThen ([Printf ("%s:%d mismatch!" ++ nl ++ "actual:" ++ nl ++ "%+v" ++ nl
                            ++ "expected:" ++ nl ++ "%+v" ++ nl ++ "for %+v" ++ nl)%string
                     [AString file; AInt line; AIface actual; AIface expected; AIface msg]],
                   Return)
                  (T_Fail t)
      end
  | Some true => done
  end.

Definition Assert (cs : runtime.stack) (t : option testing.T)
    (cond : bool) (msg : Go.iface) : result :=
  if negb cond
  then
    let '(file, line) := runtime.Caller 1 (at_line 105 cs) in
    match base_name file with
    | None => out_of_range
    | Some file =>
        andThen ([Printf ("%s:%d assert failure: %+v" ++ nl)%string
                   [AString file; AInt line; AIface msg]],
                 Return)
                (T_Fail t)
    end
  else done.

(** *** The suite contract *)

(** The interface [hasT]: a suite hands out the handle it holds, nil
    ([None]) before any was bound, and takes a new one. *)
Class hasT (S : Type) : Type := {
  T : S -> option testing.T;
  SetT : S -> testing.T -> S
}.

(** The base struct of the suites. *)
Record TestSuite : Type := mkTestSuite {
  t : option testing.T
}.

Definition TestSuite_T (s : TestSuite) : option testing.T := t s.

Definition TestSuite_SetT (s : TestSuite) (h : testing.T) : TestSuite :=
  mkTestSuite (Some h).

#[global] Instance TestSuite_hasT : hasT TestSuite :=
  {| T := TestSuite_T; SetT := TestSuite_SetT |}.

(** A suite struct that embeds [TestSuite] next to fields of its own; the
    methods of [TestSuite] are promoted to it. *)
Record Embedding (U : Type) : Type := mkEmbedding {
  base : TestSuite;
  fields : U
}.

Arguments mkEmbedding {U}.
Arguments base {U}.
Arguments fields {U}.

#[global] Instance Embedding_hasT (U : Type) : hasT (Embedding U) :=
  {| T := fun s => TestSuite_T (base s);
     SetT := fun s h => mkEmbedding (TestSuite_SetT (base s) h) (fields s) |}.

(** *** The runner *)

Section Runner.

(** The suite value, behind a pointer: every method may update it. *)
Context {S : Type} {suite_hasT : hasT S}.

(** Code that runs on the suite. *)
Definition body : Type := S -> S * result.

Definition ret : body := fun s => (s, done).

(** Statement sequencing on the suite. *)
Definition seq (m1 m2 : body) : body := fun s =>
  let '(s1, r1) := m1 s in
  match ending r1 with
  | Return =>
      let '(s2, r2) := m2 s1 in
      (s2, (events r1 ++ events r2, ending r2))
  | _ => (s1, r1)
  end.

(** A [testing.InternalTest]. *)
Record InternalTest : Type := mkInternalTest {
  Name : string;
  F : testing.T -> body
}.

(** The runner calls [f]: the call is recorded with the handle the
    suite has bound at that moment. *)
Definition call (c : callee) (f : body) : body := fun s =>
  let '(s', r) := f s in
  (s', ([Call c (T s) (events r) (ending r) (T s')], ending r)).

(** [method.Func.Call([]reflect.Value{reflect.ValueOf(suite)})]: the
    receiver is the only argument passed, so a method with parameters
    of its own, other than a single variadic one, makes reflect
    panic. *)
Definition Func_Call (method : reflect.Method body) : body := fun s =>
  if reflect.takes_receiver_alone method
  then reflect.Func method s
  else (s, ([], Panic "reflect: Call with too few input arguments")).

(** How [t.Run] ends, given how the goroutine of the sub-test [sub]
    ended. *)
Definition after_sub_test (t sub : testing.T) (o : outcome) : outcome :=
  match o with
  | Return => Return
  | Goexit h =>
      if testing.T_eqb h sub then Return
      else if testing.self_or_ancestor h t then Goexit h
      else Panic "test executed panic(nil) or runtime.Goexit"
  | Panic reason => Panic reason
  end.

(** [t.Run(name, f)] of the testing package: [f] runs on a new
    goroutine with the handle of the new sub-test, and [Run] waits for
    it.  When [f] returns, [Run] returns.  When [f] panics, the process
    dies.  When the goroutine of [f] exits through [FailNow] of the
    sub-test itself, [Run] returns; through [FailNow] of [t] or of a
    test above it, [Run] gives up its own goroutine as well (in the
    words of testing.go: FailNow was called on a parent test in one of
    the subtests, continue aborting up the chain); through any other
    exit the testing package panics. *)
Definition T_Run (t : testing.T) (name : string) (f : testing.T -> body) : body :=
  fun s =>
    let sub := testing.SubT t name in
    let '(s', r) := f sub s in
    let o := after_sub_test t sub (ending r) in
    (s', ([Call (SubTest t name) (T s) (events r) o (T s')], o)).

(** [suite.(hasSetupTest)] and [suite.(hasTearDown)]: the suite's type
    has a method of that name without parameters and results. *)
Definition implements (methodFinder : list (reflect.Method body)) (name : string)
    : option body :=
  match find (fun m => String.eqb (reflect.Name m) name) methodFinder with
  | Some m =>
      if Nat.eqb (reflect.NumIn m) 0 && Nat.eqb (reflect.NumOut m) 0
      then Some (reflect.Func m)
      else None
  | None => None
  end.

(** The first loop of [Run], from method [i] on: [tests] grows by one
    record for each method whose name matches. *)
Fixpoint discover (methods : list (reflect.Method body)) (tests : list InternalTest)
    : list InternalTest :=
  match methods with
  | [] => tests
  | method :: rest =>
      if negb (regexp.MatchString_anchored "Test" (reflect.Name method))
      then discover rest tests
      else
        let test := {| Name := reflect.Name method;
                       F := fun _ => Func_Call method |} in
        discover rest (tests ++ [test])
  end.

(** The second loop of [Run]. *)
Fixpoint range_tests (t : testing.T) (setup tearDown : option body)
    (tests : list InternalTest) : body :=
  match tests with
  | [] => ret
  | test :: rest =>
      seq (match setup with
           | Some f => call SetupTest f
           | None => ret
           end)
     (seq (T_Run t (Name test) (F test))
     (seq (match tearDown with
           | Some f => call TearDownTest f
           | None => ret
           end)
          (range_tests t setup tearDown rest)))
  end.

(** [Run(t, suite)]; [methodFinder] is the method set that
    [reflect.TypeOf(suite)] enumerates, [t] the handle of the test
    function that calls [Run]. *)
Definition Run (methodFinder : list (reflect.Method body))
    (t : testing.T) (suite : S) : S * result :=
  let suite := SetT suite t in
  let tests := [] in
  let setup := implements methodFinder "SetupTest" in
  let tearDown := implements methodFinder "TearDownTest" in
  let tests := discover methodFinder tests in
  range_tests t setup tearDown tests suite.

End Runner.

End assert.

(** ** Reading a trace of the runner *)

Definition callee_of (e : event) : option callee :=
  match e with
  | Call c _ _ _ _ => Some c
  | _ => None
  end.

(** [e] is a call made with [t] bound in the suite. *)
Definition bound_is (t : testing.T) (e : event) : bool :=
  match e with
  | Call _ (Some h) _ _ _ => testing.T_eqb h t
  | _ => false
  end.

Definition calls_SetupTest (e : event) : bool :=
  match e with Call SetupTest _ _ _ _ => true | _ => false end.

Definition calls_TearDownTest (e : event) : bool :=
  match e with Call TearDownTest _ _ _ _ => true | _ => false end.

(** [e] is a call that returned to the runner. *)
Definition call_returned (e : event) : bool :=
  match e with
  | Call _ _ _ Return _ => true
  | _ => false
  end.

Definition same_handle (a b : option testing.T) : bool :=
  match a, b with
  | None, None => true
  | Some h, Some k => testing.T_eqb h k
  | _, _ => false
  end.

(** [e] is a call whose callee found [b] bound in the suite. *)
Definition entered_with (b : option testing.T) (e : event) : bool :=
  match e with
  | Call _ b' _ _ _ => same_handle b' b
  | _ => false
  end.

(** [e] is a call whose callee left the suite with the handle it found
    bound. *)
Definition leaves_binding (e : event) : bool :=
  match e with
  | Call _ b _ _ b' => same_handle b b'
  | _ => false
  end.

(** How the first call that did not return ended; [Return] when every
    call returned. *)
Fixpoint first_abort (evs : list event) : outcome :=
  match evs with
  | [] => Return
  | Call _ _ _ Return _ :: rest => first_abort rest
  | Call _ _ _ o _ :: _ => o
  | _ :: rest => first_abort rest
  end.

(** The sub-tests among the calls, in order. *)
Fixpoint sub_tests (evs : list event) : list (testing.T * string) :=
  match evs with
  | [] => []
  | Call (SubTest p name) _ _ _ _ :: rest => (p, name) :: sub_tests rest
  | _ :: rest => sub_tests rest
  end.

(** What surrounds one test record: the hooks the suite has, around the
    sub-test. *)
Definition bracket (t : testing.T) (setup tearDown : bool) (name : string)
    : list callee :=
  (if setup then [SetupTest] else []) ++
  [SubTest t name] ++
  (if tearDown then [TearDownTest] else []).

Section Reading.

Context {S : Type} {suite_hasT : assert.hasT S}.

Definition is_test (m : reflect.Method (@assert.body S)) : bool :=
  regexp.MatchString_anchored "Test" (reflect.Name m).

(** The record the runner builds for a method. *)
Definition record_of (m : reflect.Method (@assert.body S)) : assert.InternalTest :=
  {| assert.Name := reflect.Name m; assert.F := fun _ => assert.Func_Call m |}.

Definition present (hook : option (@assert.body S)) : bool :=
  match hook with
  | Some _ => true
  | None => false
  end.

Definition has_hook (methods : list (reflect.Method (@assert.body S))) (name : string) : bool :=
  present (assert.implements methods name).

(** The names of the methods that are tests, in enumeration order. *)
Definition test_names (methods : list (reflect.Method (@assert.body S))) : list string :=
  filter (regexp.MatchString_anchored "Test") (map reflect.Name methods).

(** The calls of a complete run: every test record in turn, in its
    bracket. *)
Definition schedule (methods : list (reflect.Method (@assert.body S))) (t : testing.T)
    : list callee :=
  flat_map (bracket t (has_hook methods "SetupTest") (has_hook methods "TearDownTest"))
           (test_names methods).

(** [e] is a call the runner may make on this suite under [t]: a hook the
    suite has, or a sub-test of [t] named after one of its test
    methods. *)
Definition call_of_suite (methods : list (reflect.Method (@assert.body S))) (t : testing.T)
    (e : event) : bool :=
  match e with
  | Call SetupTest _ _ _ _ => has_hook methods "SetupTest"
  | Call TearDownTest _ _ _ _ => has_hook methods "TearDownTest"
  | Call (SubTest p name) _ _ _ _ =>
      testing.T_eqb p t && existsb (String.eqb name) (test_names methods)
  | _ => false
  end.

(** [m] ends the way the first of its calls that did not return
    ended. *)
Definition tells (m : @assert.body S) : Prop :=
  forall s, ending (snd (m s)) = first_abort (events (snd (m s))).

(** When each call of [m] leaves the handle it found, each found the
    handle bound when [m] started, and [m] leaves that handle. *)
Definition threads (m : @assert.body S) : Prop :=
  forall s,
    forallb leaves_binding (events (snd (m s))) = true ->
    forallb (entered_with (assert.T s)) (events (snd (m s))) = true /\
    assert.T (fst (m s)) = assert.T s.

(** From a state where [I] holds, [m] only produces events that satisfy
    [p], and leaves [I]. *)
Definition sound (p : event -> bool) (I : S -> Prop) (m : @assert.body S) : Prop :=
  forall s, I s -> forallb p (events (snd (m s))) = true /\ I (fst (m s)).

End Reading.

(** ** A call of a helper, as data *)

(** One call of a helper that reports through [Errorf] or [t.Fail()]:
    every exported helper of the package but [Fail]. *)
Inductive helper : Type :=
| hNotEqual (a b : Go.iface) (msg : list string)
| hEqualValues (a b : Go.iface) (msg : list string)
| hEqual (a b : Go.iface) (msg : list string)
| hNoError (err : Go.iface) (msg : list string)
| hError (err : Go.iface) (msg : list string)
| hTrue (b : bool) (msg : list string)
| hFalse (b : bool) (msg : list string)
| hContains (haystack needle : string) (msg : list string)
| hCheckEquals (actual expected msg : Go.iface)
| hAssert (cond : bool) (msg : Go.iface).

Definition invoke (cs : runtime.stack) (t : option testing.T) (h : helper) : result :=
  match h with
  | hNotEqual a b msg => assert.NotEqual cs t a b msg
  | hEqualValues a b msg => assert.EqualValues cs t a b msg
  | hEqual a b msg => assert.Equal cs t a b msg
  | hNoError err msg => assert.NoError cs t err msg
  | hError err msg => assert.Error cs t err msg
  | hTrue b msg => assert.True cs t b msg
  | hFalse b msg => assert.False cs t b msg
  | hContains haystack needle msg => assert.Contains cs t haystack needle msg
  | hCheckEquals actual expected msg => assert.CheckEquals cs t actual expected msg
  | hAssert cond msg => assert.Assert cs t cond msg
  end.

(** The two operands of [CheckEquals] have one dynamic type and that type
    is not comparable. *)
Definition compares_uncomparable (h : helper) : bool :=
  match h with
  | hCheckEquals (Some x) (Some y) _ =>
      Go.type_eqb (Go.TypeOf y) (Go.TypeOf x) && negb (Go.comparable (Go.TypeOf y))
  | _ => false
  end.

(** The assertion that [h] makes does not hold: the two values of
    NotEqual are deeply equal, those of EqualValues and Equal are not,
    the error of NoError is not nil, that of Error is, the boolean of
    True or Assert is false, that of False is true, the needle of
    Contains does not occur in the haystack, the two values of
    CheckEquals can be compared with [!=] and differ. *)
Definition assertion_fails (h : helper) : bool :=
  match h with
  | hNotEqual a b _ => Go.DeepEqual a b
  | hEqualValues a b _ | hEqual a b _ => negb (Go.DeepEqual a b)
  | hNoError err _ => match err with Some _ => true | None => false end
  | hError err _ => match err with Some _ => false | None => true end
  | hTrue b _ => negb b
  | hFalse b _ => b
  | hContains haystack needle _ => negb (strings.Contains haystack needle)
  | hCheckEquals actual expected _ =>
      match Go.ifaceEq expected actual with
      | Some false => true
      | _ => false
      end
  | hAssert cond _ => negb cond
  end.

(** [h] is a call of Equal, the one helper that reaches [Errorf] through
    another helper. *)
Definition is_hEqual (h : helper) : bool :=
  match h with
  | hEqual _ _ _ => true
  | _ => false
  end.

(** The file name and line at the head of the line a helper prints. *)
Definition location (r : result) : option (string * Z) :=
  match events r with
  | Printf _ (AString file :: AInt line :: _) :: _ => Some (file, line)
  | _ => None
  end.

(** Values made of booleans, integers, strings and structs of these: no
    pointer, slice or function inside. *)
Fixpoint plain (v : Go.value) : bool :=
  match v with
  | Go.VBool _ | Go.VInt _ | Go.VInt64 _ | Go.VString _ => true
  | Go.VStruct _ fields =>
      (fix all (l : list Go.value) : bool :=
         match l with
         | [] => true
         | x :: l' => plain x && all l'
         end) fields
  | _ => false
  end.

(** ** Sample suites *)

Module Demo.

(** [type Suite struct { assert.TestSuite; log []string }]. *)
Definition Suite : Type := assert.Embedding (list string).

Definition body : Type := @assert.body Suite.

(** [s.log = append(s.log, what)]. *)
Definition note (what : string) : body := fun s =>
  (assert.mkEmbedding (assert.base s) (assert.fields s ++ [what]), done).

(** The stack inside a method of the suite that reflect has called. *)
Definition in_method (line : Z) : runtime.stack :=
  [("/home/dev/proj/suite_test.go", line);
   ("/usr/local/go/src/reflect/value.go", 380)].

(** A statement that passes [s.T()] to a helper. *)
Definition with_T (f : option testing.T -> result) : body := fun s =>
  (s, f (assert.T s)).

Definition method (name : string) (code : body) : reflect.Method body :=
  reflect.mkMethod name 0 0 false code.

(** The promoted methods SetT (one parameter) and T (one result), as
    reflect lists them. *)
Definition m_SetT : reflect.Method body := reflect.mkMethod "SetT" 1 0 false assert.ret.
Definition m_T : reflect.Method body := reflect.mkMethod "T" 0 1 false assert.ret.

Definition top : testing.T := testing.TopT "TestSuite".
Definition other : testing.T := testing.TopT "TestOther".

Definition fresh : Suite := assert.mkEmbedding (assert.mkTestSuite None) [].

(** Methods Helper, SetupTest, TearDownTest, TestA and TestB, in the
    order reflect lists them (sorted by name). *)
Definition full : list (reflect.Method body) :=
  [ method "Helper" (note "helper");
    m_SetT;
    method "SetupTest" (note "setup");
    m_T;
    method "TearDownTest" (note "teardown");
    method "TestA" (assert.seq (note "a1")
                     (assert.seq (with_T (fun h => assert.True (in_method 21) h false ["a"]))
                                 (note "a2")));
    method "TestB" (note "b") ].

(** The same suite without the two hooks. *)
Definition bare : list (reflect.Method body) :=
  [ method "Helper" (note "helper");
    m_SetT;
    m_T;
    method "TestA" (note "a");
    method "TestB" (note "b") ].

(** TestA calls [assert.Fail(s.T(), "stop")] half way. *)
Definition fatal : list (reflect.Method body) :=
  [ m_SetT;
    method "SetupTest" (note "setup");
    m_T;
    method "TearDownTest" (note "teardown");
    method "TestA" (assert.seq (note "a1")
                     (assert.seq (with_T (fun h => assert.Fail (in_method 31) h "stop"))
                                 (note "a2")));
    method "TestB" (note "b") ].

(** TestA calls [s.SetT(other)]. *)
Definition rebinding : list (reflect.Method body) :=
  [ m_SetT;
    m_T;
    method "TearDownTest" (note "teardown");
    method "TestA" (fun s => (assert.SetT s other, done)) ].

(** A suite with hooks and a helper but no test method. *)
Definition idle : list (reflect.Method body) :=
  [ method "Helper" (note "helper");
    m_SetT;
    method "SetupTest" (note "setup");
    m_T;
    method "TearDownTest" (note "teardown") ].

(** A suite whose SetupTest returns a value: [func (s *Suite) SetupTest() error]. *)
Definition misdeclared : list (reflect.Method body) :=
  [ m_SetT;
    reflect.mkMethod "SetupTest" 0 1 false (note "setup");
    m_T;
    method "TestA" (note "a") ].

(** A suite with a fixture: SetupTest opens it, the tests need it open,
    TearDownTest closes it. *)
Definition open_fixture : body := fun s =>
  (assert.mkEmbedding (assert.base s) ["open"%string], done).

Definition close_fixture : body := fun s =>
  (assert.mkEmbedding (assert.base s) [], done).

Definition use_fixture (what : string) : body := fun s =>
  match assert.fields s with
  | [] => (s, ([], Panic "fixture is closed"))
  | _ :: _ => note what s
  end.

Definition fixture : list (reflect.Method body) :=
  [ m_SetT;
    method "SetupTest" open_fixture;
    m_T;
    method "TearDownTest" close_fixture;
    method "TestA" (use_fixture "a");
    method "TestB" (use_fixture "b") ].

(** A suite without hooks whose TestA calls [assert.Fail(s.T(), "stop")]. *)
Definition bare_fatal : list (reflect.Method body) :=
  [ m_SetT;
    m_T;
    method "TestA" (with_T (fun h => assert.Fail (in_method 41) h "stop"));
    method "TestB" (note "b") ].

(** A suite with a test [TestV(args ...int)]. *)
Definition variadic : list (reflect.Method body) :=
  [ m_SetT;
    m_T;
    reflect.mkMethod "TestV" 1 0 true (note "v") ].

(** A suite with a test [TestP(n int)]. *)
Definition with_parameter : list (reflect.Method body) :=
  [ m_SetT;
    m_T;
    reflect.mkMethod "TestP" 1 0 false (note "p") ].

(** A suite type with methods T and SetT of its own, which do not keep
    the handle: SetT has an empty body and T returns nil. *)
Record Deaf : Type := mkDeaf {
  heard : list string
}.

#[global] Instance Deaf_hasT : assert.hasT Deaf :=
  {| assert.T := fun _ => None; assert.SetT := fun d _ => d |}.

Definition deaf_methods : list (reflect.Method (@assert.body Deaf)) :=
  [ reflect.mkMethod "SetT" 1 0 false assert.ret;
    reflect.mkMethod "T" 0 1 false assert.ret;
    reflect.mkMethod "TestA" 0 0 false
      (fun d => (mkDeaf (heard d ++ ["a"%string]), done)) ].

(** Two allocations of [Point{1, 2}]. *)
Definition Point : Go.type := Go.Struct "Point" [Go.Int; Go.Int].

Definition point_at (a : Go.addr) : Go.iface :=
  Some (Go.VPointer Point (Some (a, Go.VStruct "Point" [Go.VInt 1; Go.VInt 2]))).

End Demo.

(** ** The file name that is printed *)

Lemma prefix_length (sub s : string) :
  String.prefix sub s = true -> (String.length sub <= String.length s)%nat.
Proof.
  revert s. induction sub as [|c sub IH]; intros s H; simpl.
  - lia.
  - destruct s as [|d s]; simpl in H; [discriminate|].
    destruct (Ascii.ascii_dec c d); [|discriminate].
    apply IH in H. simpl. lia.
Qed.

(** [strings.LastIndex] answers -1 or the offset of an occurrence that
    fits in the string. *)
Lemma LastIndex_from_range (s sub : string) (i : Z) :
  0 <= i ->
  strings.LastIndex_from i s sub = -1 \/
  (i <= strings.LastIndex_from i s sub /\
   strings.LastIndex_from i s sub + Z.of_nat (String.length sub)
     <= i + Z.of_nat (String.length s)).
Proof.
  revert i. induction s as [|c s IH]; intros i Hi.
  - change (strings.LastIndex_from i "" sub)
      with (if String.eqb sub "" then i else -1).
    destruct (String.eqb_spec sub "") as [-> | _]; [right; simpl; lia | left; reflexivity].
  - change (strings.LastIndex_from i (String.String c s) sub)
      with (if 0 <=? strings.LastIndex_from (i + 1) s sub
            then strings.LastIndex_from (i + 1) s sub
            else if String.prefix sub (String.String c s) then i else -1).
    assert (Hlen : Z.of_nat (String.length (String.String c s))
                   = Z.of_nat (String.length s) + 1)
      by (simpl String.length; lia).
    rewrite Hlen.
    destruct (IH (i + 1) ltac:(lia)) as [E | [Hlo Hhi]].
    + rewrite E. change (0 <=? -1) with false. cbv iota.
      destruct (String.prefix sub (String.String c s)) eqn:P; [|left; reflexivity].
      apply prefix_length in P. right. lia.
    + destruct (Z.leb_spec 0 (strings.LastIndex_from (i + 1) s sub)); [right|]; lia.
Qed.

(** The slice expression that cuts the directories off never panics. *)
Lemma base_name_in_range (file : string) :
  assert.base_name file = Some (strings.cut file (strings.LastIndex file "/" + 1)).
Proof.
  unfold assert.base_name, strings.slice_from, strings.LastIndex.
  assert (H : 0 <= strings.LastIndex_from 0 file "/" + 1 <= Z.of_nat (String.length file)).
  { destruct (LastIndex_from_range file "/" 0 ltac:(lia)) as [E | [Hlo Hhi]].
    - rewrite E. lia.
    - simpl String.length in Hhi. lia. }
  destruct (Z.leb_spec 0 (strings.LastIndex_from 0 file "/" + 1)); [|lia].
  destruct (Z.leb_spec (strings.LastIndex_from 0 file "/" + 1) (Z.of_nat (String.length file)));
    [reflexivity | lia].
Qed.

(** ** The assertion helpers *)

Section Helpers.

Variable cs : runtime.stack.
Variable t : testing.T.

Lemma T_eqb_refl (h : testing.T) : testing.T_eqb h h = true.
Proof.
  induction h as [n | p IH n]; simpl.
  - apply String.eqb_refl.
  - rewrite String.eqb_refl, IH. reflexivity.
Qed.

Lemma T_eqb_eq (h k : testing.T) : testing.T_eqb h k = true -> h = k.
Proof.
  revert k. induction h as [n | p IH n]; intros [m | q m]; simpl; try discriminate.
  - intros H. apply String.eqb_eq in H. now subst.
  - intros H. apply andb_true_iff in H as [Hn Hp].
    apply String.eqb_eq in Hn. apply IH in Hp. now subst.
Qed.

(** Given a handle, [Errorf] prints one line and calls [t.Fail()],
    whatever else it is given. *)
Lemma Errorf_does (st : runtime.stack) (format : string) (rest : list arg) :
  assert.Errorf st (Some t) format rest =
    ([Printf "%s:%d %s"
        [AString (strings.cut (fst (runtime.Caller 2 (assert.at_line 22 st)))
                    (strings.LastIndex (fst (runtime.Caller 2 (assert.at_line 22 st))) "/" + 1));
         AInt (snd (runtime.Caller 2 (assert.at_line 22 st)));
         ASprintf format rest];
      TFail t], Return).
Proof.
  unfold assert.Errorf. destruct (runtime.Caller 2 _) as [file line].
  rewrite base_name_in_range. reflexivity.
Qed.

(** Given nil, [Errorf] prints the same line and panics in
    [t.Fail()]. *)
Lemma Errorf_on_nil (st : runtime.stack) (format : string) (rest : list arg) :
  assert.Errorf st None format rest =
    ([Printf "%s:%d %s"
        [AString (strings.cut (fst (runtime.Caller 2 (assert.at_line 22 st)))
                    (strings.LastIndex (fst (runtime.Caller 2 (assert.at_line 22 st))) "/" + 1));
         AInt (snd (runtime.Caller 2 (assert.at_line 22 st)));
         ASprintf format rest]],
     Panic nil_dereference).
Proof.
  unfold assert.Errorf. destruct (runtime.Caller 2 _) as [file line].
  rewrite base_name_in_range. reflexivity.
Qed.

Lemma Errorf_reports (st : runtime.stack) (format : string) (rest : list arg) :
  reports_failure t (assert.Errorf st (Some t) format rest) = true.
Proof.
  rewrite Errorf_does. unfold reports_failure. simpl.
  rewrite T_eqb_refl. reflexivity.
Qed.

Lemma Errorf_returns (st : runtime.stack) (format : string) (rest : list arg) :
  ending (assert.Errorf st (Some t) format rest) = Return.
Proof. rewrite Errorf_does. reflexivity. Qed.

Lemma Errorf_not_fatal (st : runtime.stack) (format : string) (rest : list arg) :
  existsb is_FailNow (events (assert.Errorf st (Some t) format rest)) = false.
Proof. rewrite Errorf_does. reflexivity. Qed.

Lemma done_silent : reports_failure t done = false.
Proof. reflexivity. Qed.

End Helpers.

Create Rewrite HintDb helpers.
#[local] Hint Rewrite Errorf_reports Errorf_returns Errorf_not_fatal done_silent : helpers.

(** C4. Equal reports a failure exactly when its arguments are not deeply
    equal (reflect.DeepEqual), NotEqual exactly when they are; an
    assertion that holds has no effect at all. *)
Theorem Equal_NotEqual_follow_DeepEqual
    (cs : runtime.stack) (t : testing.T) (a b : Go.iface) (msg : list string) :
  reports_failure t (assert.Equal cs (Some t) a b msg) = negb (Go.DeepEqual a b) /\
  reports_failure t (assert.NotEqual cs (Some t) a b msg) = Go.DeepEqual a b /\
  ending (assert.Equal cs (Some t) a b msg) = Return /\
  ending (assert.NotEqual cs (Some t) a b msg) = Return /\
  (if Go.DeepEqual a b
   then assert.Equal cs (Some t) a b msg
   else assert.NotEqual cs (Some t) a b msg) = done.
Proof.
  unfold assert.Equal, assert.EqualValues, assert.NotEqual, assert.ObjectsAreEqualValues.
  destruct (Go.DeepEqual a b); cbn [negb]; autorewrite with helpers; auto.
Qed.

(** C5. NoError reports a failure exactly when err is not nil, Error
    exactly when it is. *)
Theorem NoError_Error_follow_nil
    (cs : runtime.stack) (t : testing.T) (err : Go.iface) (msg : list string) :
  reports_failure t (assert.NoError cs (Some t) err msg) = negb (assert.isNil err) /\
  reports_failure t (assert.Error cs (Some t) err msg) = assert.isNil err.
Proof.
  unfold assert.NoError, assert.Error.
  destruct (assert.isNil err); cbn [negb]; autorewrite with helpers; auto.
Qed.

Section HelperCalls.

Variable cs : runtime.stack.
Variable t : testing.T.

(** Unfold a helper down to [Errorf], [done] or its own report. *)
Ltac expose :=
  unfold invoke, assert.NotEqual, assert.EqualValues, assert.Equal, assert.NoError,
    assert.Error, assert.True, assert.False, assert.Contains, assert.CheckEquals,
    assert.Assert, assert.Fail, assert.EqualValues.

Ltac branches :=
  repeat match goal with
    | |- context [if ?c then _ else _] => destruct c
    | |- context [match Go.ifaceEq ?a ?b with _ => _ end] => destruct (Go.ifaceEq a b) as [[|]|]
    | |- context [let '(_, _) := ?p in _] => destruct p
    | |- context [assert.base_name ?f] => rewrite (base_name_in_range f)
    end.

Lemma invoke_never_FailNow (h : helper) :
  existsb is_FailNow (events (invoke cs (Some t) h)) = false.
Proof.
  destruct h; expose; branches; autorewrite with helpers; reflexivity.
Qed.

Lemma invoke_report_is_Fail (h : helper) :
  reports_failure t (invoke cs (Some t) h) = true ->
  ending (invoke cs (Some t) h) = Return /\ existsb is_Fail (events (invoke cs (Some t) h)) = true.
Proof.
  destruct h; expose; branches; try rewrite !Errorf_does;
    unfold reports_failure, done, andThen;
    cbn [events ending fst snd existsb marks_failed is_Fail orb app];
    intros H; try discriminate; auto.
Qed.

Lemma invoke_panics (h : helper) :
  panics (invoke cs (Some t) h) = compares_uncomparable h.
Proof.
  destruct h; expose; unfold panics;
    try (branches; autorewrite with helpers; reflexivity).
  unfold Go.ifaceEq, compares_uncomparable.
  destruct expected as [y|], actual as [x|];
    try reflexivity; branches; reflexivity.
Qed.

Lemma Fail_does (msg : string) :
  assert.Fail cs (Some t) msg =
    ([Printf ("%s:%d %s" ++ assert.nl)%string
        [AString (strings.cut (fst (runtime.Caller 1 (assert.at_line 84 cs)))
                    (strings.LastIndex (fst (runtime.Caller 1 (assert.at_line 84 cs))) "/" + 1));
         AInt (snd (runtime.Caller 1 (assert.at_line 84 cs)));
         AString msg];
      TFailNow t], Goexit t).
Proof.
  unfold assert.Fail. destruct (runtime.Caller 1 _).
  rewrite base_name_in_range. reflexivity.
Qed.

(** A helper marks its handle exactly when its assertion does not
    hold. *)
Lemma invoke_reports (h : helper) :
  reports_failure t (invoke cs (Some t) h) = assertion_fails h.
Proof.
  assert (Hown : forall format args,
            reports_failure t
              (andThen ([Printf format args], Return) (T_Fail (Some t))) = true).
  { intros format args. unfold reports_failure, andThen, T_Fail.
    cbn [events ending fst snd existsb marks_failed app orb].
    rewrite T_eqb_refl. reflexivity. }
  destruct h as [a b msg | a b msg | a b msg | err msg | err msg | b msg | b msg
                | haystack needle msg | actual expected msg | cond msg];
    expose; unfold assertion_fails, assert.ObjectsAreEqualValues, assert.isNil.
  - destruct (Go.DeepEqual a b); autorewrite with helpers; reflexivity.
  - destruct (Go.DeepEqual a b); cbn [negb]; autorewrite with helpers; reflexivity.
  - destruct (Go.DeepEqual a b); cbn [negb]; autorewrite with helpers; reflexivity.
  - destruct err; cbn [negb]; autorewrite with helpers; reflexivity.
  - destruct err; autorewrite with helpers; reflexivity.
  - destruct b; cbn [negb]; autorewrite with helpers; reflexivity.
  - destruct b; autorewrite with helpers; reflexivity.
  - destruct (strings.Contains haystack needle); cbn [negb];
      autorewrite with helpers; reflexivity.
  - destruct (Go.ifaceEq expected actual) as [[|]|]; try reflexivity.
    destruct (runtime.Caller 1 _). rewrite base_name_in_range. apply Hown.
  - destruct cond; cbn [negb]; [reflexivity|].
    destruct (runtime.Caller 1 _). rewrite base_name_in_range. apply Hown.
Qed.

(** Given nil for a handle, a helper panics when it comes to mark it:
    exactly when its assertion does not hold (and CheckEquals also when
    its comparison panics). *)
Lemma invoke_panics_on_nil (h : helper) :
  panics (invoke cs None h) = compares_uncomparable h || assertion_fails h.
Proof.
  destruct h as [a b msg | a b msg | a b msg | err msg | err msg | b msg | b msg
                | haystack needle msg | actual expected msg | cond msg];
    expose;
    unfold assertion_fails, compares_uncomparable, assert.ObjectsAreEqualValues, assert.isNil;
    cbn [orb].
  - destruct (Go.DeepEqual a b); rewrite ?Errorf_on_nil; reflexivity.
  - destruct (Go.DeepEqual a b); cbn [negb]; rewrite ?Errorf_on_nil; reflexivity.
  - destruct (Go.DeepEqual a b); cbn [negb]; rewrite ?Errorf_on_nil; reflexivity.
  - destruct err; cbn [negb]; rewrite ?Errorf_on_nil; reflexivity.
  - destruct err; rewrite ?Errorf_on_nil; reflexivity.
  - destruct b; cbn [negb]; rewrite ?Errorf_on_nil; reflexivity.
  - destruct b; rewrite ?Errorf_on_nil; reflexivity.
  - destruct (strings.Contains haystack needle); cbn [negb];
      rewrite ?Errorf_on_nil; reflexivity.
  - unfold Go.ifaceEq.
    destruct expected as [y|], actual as [x|]; cbn [orb];
      repeat match goal with
        | |- context [if ?c then _ else _] => destruct c
        | |- context [let '(_, _) := ?p in _] => destruct p
        | |- context [assert.base_name ?f] => rewrite (base_name_in_range f)
        end; reflexivity.
  - destruct cond; cbn [negb]; [reflexivity|].
    destruct (runtime.Caller 1 _). rewrite base_name_in_range. reflexivity.
Qed.

Lemma Fail_on_nil (msg : string) :
  assert.Fail cs None msg =
    ([Printf ("%s:%d %s" ++ assert.nl)%string
        [AString (strings.cut (fst (runtime.Caller 1 (assert.at_line 84 cs)))
                    (strings.LastIndex (fst (runtime.Caller 1 (assert.at_line 84 cs))) "/" + 1));
         AInt (snd (runtime.Caller 1 (assert.at_line 84 cs)));
         AString msg]],
     Panic nil_dereference).
Proof.
  unfold assert.Fail. destruct (runtime.Caller 1 _).
  rewrite base_name_in_range. reflexivity.
Qed.

End HelperCalls.

(** C6. Fail reports through FailNow, which ends the goroutine: whatever
    follows it in the body does not run.  Every other helper, when its
    assertion does not hold, marks the test failed, through Fail alone,
    and returns: what follows it runs. *)
Theorem Fail_stops_the_body_the_others_do_not
    (cs : runtime.stack) (t : testing.T) (msg : string) (h : helper) (next : result) :
  assertion_fails h = true ->
  (existsb is_FailNow (events (assert.Fail cs (Some t) msg)) = true /\
   existsb is_Fail (events (assert.Fail cs (Some t) msg)) = false /\
   reports_failure t (assert.Fail cs (Some t) msg) = true /\
   ending (assert.Fail cs (Some t) msg) = Goexit t /\
   andThen (assert.Fail cs (Some t) msg) next = assert.Fail cs (Some t) msg) /\
  (reports_failure t (invoke cs (Some t) h) = true /\
   existsb is_FailNow (events (invoke cs (Some t) h)) = false /\
   existsb is_Fail (events (invoke cs (Some t) h)) = true /\
   ending (invoke cs (Some t) h) = Return /\
   andThen (invoke cs (Some t) h) next = (events (invoke cs (Some t) h) ++ events next, ending next)).
Proof.
  intros Hfails.
  assert (Hrep : reports_failure t (invoke cs (Some t) h) = true)
    by (rewrite invoke_reports; exact Hfails).
  split.
  - rewrite Fail_does. unfold reports_failure, andThen. simpl.
    rewrite T_eqb_refl. auto.
  - destruct (invoke_report_is_Fail cs t h Hrep) as [Hret Hfail].
    repeat split; auto using invoke_never_FailNow.
    unfold andThen. rewrite Hret. reflexivity.
Qed.

Lemma Fail_stops_the_body_the_others_do_not_witness :
  let cs := Demo.in_method 12 in
  let h := hTrue false ["flag"] in
  assertion_fails h = true /\
  reports_failure Demo.top (invoke cs (Some Demo.top) h) = true /\
  andThen (assert.Fail cs (Some Demo.top) "stop") (invoke cs (Some Demo.top) h)
    = assert.Fail cs (Some Demo.top) "stop" /\
  ending (andThen (invoke cs (Some Demo.top) h) (assert.Fail cs (Some Demo.top) "stop"))
    = Goexit Demo.top.
Proof.
  assert (Hfails : assertion_fails (hTrue false ["flag"]) = true) by reflexivity.
  pose proof (Fail_stops_the_body_the_others_do_not (Demo.in_method 12) Demo.top "stop"
                (hTrue false ["flag"]) (invoke (Demo.in_method 12) (Some Demo.top) (hTrue false ["flag"]))
                Hfails) as [[_ [_ [_ [_ Hstop]]]] [Hrep _]].
  pose proof (Fail_stops_the_body_the_others_do_not (Demo.in_method 12) Demo.top "stop"
                (hTrue false ["flag"]) (assert.Fail (Demo.in_method 12) (Some Demo.top) "stop")
                Hfails) as [_ [_ [_ [_ [_ Hgo]]]]].
  cbv zeta. split; [exact Hfails|]. split; [exact Hrep|]. split; [exact Hstop|].
  rewrite Hgo. reflexivity.
Defined.

(** ** Comparing interface values *)

Lemma type_eqb_sym : forall a b : Go.type, Go.type_eqb a b = Go.type_eqb b a.
Proof.
  fix IH 1.
  intros [ | | | | e | e | n f | ] [ | | | | e' | e' | n' f' | ]; simpl;
    try reflexivity; try apply IH.
  rewrite String.eqb_sym. f_equal.
  revert f'. induction f as [|a f IHf]; intros [|b f']; try reflexivity.
  rewrite (IH a b), IHf. reflexivity.
Qed.

Lemma distinct_types_not_DeepEqual (x y : Go.value) :
  Go.type_eqb (Go.TypeOf x) (Go.TypeOf y) = false ->
  Go.DeepEqual (Some x) (Some y) = false.
Proof. intros H. unfold Go.DeepEqual. rewrite H. reflexivity. Qed.

Lemma distinct_types_not_equal (x y : Go.value) :
  Go.type_eqb (Go.TypeOf x) (Go.TypeOf y) = false ->
  Go.ifaceEq (Some y) (Some x) = Some false.
Proof. intros H. unfold Go.ifaceEq. rewrite type_eqb_sym, H. reflexivity. Qed.

Lemma CheckEquals_mismatch (cs : runtime.stack) (t : testing.T) (actual expected msg : Go.iface) :
  Go.ifaceEq expected actual = Some false ->
  reports_failure t (assert.CheckEquals cs (Some t) actual expected msg) = true /\
  ending (assert.CheckEquals cs (Some t) actual expected msg) = Return.
Proof.
  intros H. unfold assert.CheckEquals. rewrite H.
  destruct (runtime.Caller 1 _). rewrite base_name_in_range.
  unfold reports_failure. simpl.
  rewrite T_eqb_refl. auto.
Qed.

(** C7, as amended. Given a handle that is not nil, no helper panics,
    with one exception: CheckEquals panics exactly when its two operands
    have one dynamic type and that type is not comparable.  Operands of
    two different types are reported as a mismatch by Equal and by
    CheckEquals, and pass NotEqual; all three return.  Given nil, a
    helper panics exactly when its assertion does not hold, as it comes
    to mark the test (or, for CheckEquals, when the comparison panics);
    given nil, Fail always panics. *)
Theorem helpers_run_to_completion
    (cs : runtime.stack) (t : testing.T) (h : helper) (text : string)
    (x y : Go.value) (msg : list string) (note : Go.iface) :
  Go.type_eqb (Go.TypeOf x) (Go.TypeOf y) = false ->
  panics (assert.Fail cs (Some t) text) = false /\
  panics (invoke cs (Some t) h) = compares_uncomparable h /\
  (reports_failure t (assert.Equal cs (Some t) (Some x) (Some y) msg) = true /\
   ending (assert.Equal cs (Some t) (Some x) (Some y) msg) = Return) /\
  assert.NotEqual cs (Some t) (Some x) (Some y) msg = done /\
  (reports_failure t (assert.CheckEquals cs (Some t) (Some x) (Some y) note) = true /\
   ending (assert.CheckEquals cs (Some t) (Some x) (Some y) note) = Return) /\
  panics (invoke cs None h) = compares_uncomparable h || assertion_fails h /\
  panics (assert.Fail cs None text) = true.
Proof.
  intros Hty.
  split. { rewrite Fail_does. reflexivity. }
  split. { apply invoke_panics. }
  split.
  { unfold assert.Equal, assert.EqualValues, assert.ObjectsAreEqualValues.
    rewrite (distinct_types_not_DeepEqual x y Hty). cbn [negb].
    autorewrite with helpers. auto. }
  split.
  { unfold assert.NotEqual, assert.ObjectsAreEqualValues.
    rewrite (distinct_types_not_DeepEqual x y Hty). reflexivity. }
  split. { apply CheckEquals_mismatch, distinct_types_not_equal, Hty. }
  split. { apply invoke_panics_on_nil. }
  rewrite Fail_on_nil. reflexivity.
Qed.

Lemma helpers_run_to_completion_witness :
  let cs := Demo.in_method 15 in
  let ints := Go.VSlice Go.Int (Some (7%nat, [Go.VInt 1])) in
  Go.type_eqb (Go.TypeOf (Go.VInt 1)) (Go.TypeOf (Go.VString "1")) = false /\
  panics (invoke cs (Some Demo.top) (hCheckEquals (Some ints) (Some ints) None)) = true /\
  panics (invoke cs (Some Demo.top) (hEqual (Some ints) (Some ints) [])) = false /\
  reports_failure Demo.top
    (assert.Equal cs (Some Demo.top) (Some (Go.VInt 1)) (Some (Go.VString "1")) []) = true.
Proof.
  assert (Hty : Go.type_eqb (Go.TypeOf (Go.VInt 1)) (Go.TypeOf (Go.VString "1")) = false)
    by reflexivity.
  cbv zeta. split; [exact Hty|].
  split.
  { rewrite (proj1 (proj2 (helpers_run_to_completion (Demo.in_method 15) Demo.top
       (hCheckEquals (Some (Go.VSlice Go.Int (Some (7%nat, [Go.VInt 1]))))
                     (Some (Go.VSlice Go.Int (Some (7%nat, [Go.VInt 1])))) None)
       "" (Go.VInt 1) (Go.VString "1") [] None Hty))).
    reflexivity. }
  split.
  { rewrite (proj1 (proj2 (helpers_run_to_completion (Demo.in_method 15) Demo.top
       (hEqual (Some (Go.VSlice Go.Int (Some (7%nat, [Go.VInt 1]))))
               (Some (Go.VSlice Go.Int (Some (7%nat, [Go.VInt 1])))) [])
       "" (Go.VInt 1) (Go.VString "1") [] None Hty))).
    reflexivity. }
  exact (proj1 (proj1 (proj2 (proj2 (helpers_run_to_completion (Demo.in_method 15) Demo.top
       (hTrue true []) "" (Go.VInt 1) (Go.VString "1") [] None Hty))))).
Defined.

(** C7, as stated, fails: True is not CheckEquals, and given a nil handle
    and a false condition it prints its line and panics in
    [t.Fail()]. *)
Lemma True_panics_on_a_nil_handle :
  assert.True (Demo.in_method 21) None false ["flag"] =
    ([Printf "%s:%d %s"
        [AString "suite_test.go"; AInt 21;
         ASprintf "expecting true, didn't: %v" [AStrings ["flag"]]]],
     Panic nil_dereference) /\
  panics (invoke (Demo.in_method 21) None (hTrue false ["flag"])) = true /\
  compares_uncomparable (hTrue false ["flag"]) = false.
Proof. repeat split. Qed.

(** C9. CheckEquals compares with [!=]: two pointers to separate
    allocations of one struct value are deeply equal, Equal accepts them,
    CheckEquals reports a mismatch. *)
Theorem CheckEquals_compares_by_identity
    (cs : runtime.stack) (t : testing.T) (msg : Go.iface) :
  exists a b : Go.iface,
    a <> b /\
    Go.DeepEqual a b = true /\
    Go.ifaceEq b a = Some false /\
    reports_failure t (assert.CheckEquals cs (Some t) a b msg) = true /\
    ending (assert.CheckEquals cs (Some t) a b msg) = Return /\
    assert.Equal cs (Some t) a b [] = done.
Proof.
  exists (Demo.point_at 1%nat), (Demo.point_at 2%nat).
  split; [discriminate|].
  split; [reflexivity|].
  split; [reflexivity|].
  split; [|split].
  - apply CheckEquals_mismatch. reflexivity.
  - apply CheckEquals_mismatch. reflexivity.
  - reflexivity.
Qed.

(** ** Equal and EqualValues *)

(** Equal decides as EqualValues does and formats the same message. *)
Lemma Equal_decides_as_EqualValues
    (cs : runtime.stack) (t : testing.T) (a b : Go.iface) (msg : list string) :
  reports_failure t (assert.Equal cs (Some t) a b msg)
    = reports_failure t (assert.EqualValues cs (Some t) a b msg) /\
  ending (assert.Equal cs (Some t) a b msg) = ending (assert.EqualValues cs (Some t) a b msg).
Proof.
  unfold assert.Equal, assert.EqualValues.
  destruct (negb _); autorewrite with helpers; auto.
Qed.

(** The location [Errorf] prints is that of the caller of its caller:
    for EqualValues the line of the test that called it, for Equal the
    line of Equal that calls EqualValues. *)
Lemma Equal_location
    (cs : runtime.stack) (t : testing.T) (a b : Go.iface) (msg : list string) :
  Go.DeepEqual a b = false ->
  assert.Equal cs (Some t) a b msg =
    ([Printf "%s:%d %s"
        [AString "assert.go"; AInt 44;
         ASprintf "%v unexpectedly not equal %v: %v" [AIface a; AIface b; AStrings msg]];
      TFail t], Return).
Proof.
  intros H. unfold assert.Equal, assert.EqualValues, assert.ObjectsAreEqualValues.
  rewrite H. reflexivity.
Qed.

(** C10. [Equal(t, 1, 2)] called from line 10 of suite_test.go prints
    assert.go:44 where EqualValues, called from the same line, prints
    suite_test.go:10. *)
Theorem Equal_prints_its_own_line :
  let cs := Demo.in_method 10 in
  let one := Some (Go.VInt 1) in
  let two := Some (Go.VInt 2) in
  assert.Equal cs (Some Demo.top) one two [] =
    ([Printf "%s:%d %s"
        [AString "assert.go"; AInt 44;
         ASprintf "%v unexpectedly not equal %v: %v" [AIface one; AIface two; AStrings []]];
      TFail Demo.top], Return) /\
  assert.EqualValues cs (Some Demo.top) one two [] =
    ([Printf "%s:%d %s"
        [AString "suite_test.go"; AInt 10;
         ASprintf "%v unexpectedly not equal %v: %v" [AIface one; AIface two; AStrings []]];
      TFail Demo.top], Return) /\
  assert.Equal cs (Some Demo.top) one two [] <> assert.EqualValues cs (Some Demo.top) one two [].
Proof.
  cbv zeta. split; [reflexivity|]. split; [reflexivity|].
  intros H.
  apply (f_equal (fun r => match events r with
                           | Printf _ (_ :: AInt line :: _) :: _ => line
                           | _ => 0
                           end)) in H.
  vm_compute in H. discriminate H.
Qed.


(** ** The suite runner *)

Section RunnerFacts.

Context {S : Type} {suite_hasT : assert.hasT S}.

Implicit Types (f m n : @assert.body S) (s : S).

Lemma call_does (c : callee) f s :
  assert.call c f s =
    (fst (f s),
     ([Call c (assert.T s) (events (snd (f s))) (ending (snd (f s)))
            (assert.T (fst (f s)))],
      ending (snd (f s)))).
Proof. unfold assert.call. destruct (f s) as [s' r]. reflexivity. Qed.

Lemma T_Run_does (t : testing.T) (name : string) (F : testing.T -> @assert.body S) s :
  assert.T_Run t name F s =
    (fst (F (testing.SubT t name) s),
     ([Call (SubTest t name) (assert.T s) (events (snd (F (testing.SubT t name) s)))
            (assert.after_sub_test t (testing.SubT t name)
               (ending (snd (F (testing.SubT t name) s))))
            (assert.T (fst (F (testing.SubT t name) s)))],
      assert.after_sub_test t (testing.SubT t name)
        (ending (snd (F (testing.SubT t name) s))))).
Proof.
  unfold assert.T_Run. destruct (F (testing.SubT t name) s) as [s' r]. reflexivity.
Qed.

Lemma seq_returning m n s :
  ending (snd (m s)) = Return ->
  assert.seq m n s =
    (fst (n (fst (m s))),
     (events (snd (m s)) ++ events (snd (n (fst (m s)))),
      ending (snd (n (fst (m s)))))).
Proof.
  unfold assert.seq. destruct (m s) as [s1 r1]. simpl. intros ->.
  destruct (n s1) as [s2 r2]. reflexivity.
Qed.

Lemma seq_stopping m n s :
  ending (snd (m s)) <> Return -> assert.seq m n s = m s.
Proof.
  unfold assert.seq. destruct (m s) as [s1 r1]. simpl.
  destruct (ending r1); congruence.
Qed.

Lemma seq_returned m n s :
  ending (snd (assert.seq m n s)) = Return ->
  ending (snd (m s)) = Return /\ ending (snd (n (fst (m s)))) = Return.
Proof.
  intros H. destruct (ending (snd (m s))) eqn:E.
  - rewrite seq_returning in H by exact E. auto.
  - rewrite seq_stopping in H by congruence. congruence.
  - rewrite seq_stopping in H by congruence. congruence.
Qed.

Lemma events_seq m n s :
  ending (snd (m s)) = Return ->
  events (snd (assert.seq m n s)) = events (snd (m s)) ++ events (snd (n (fst (m s)))).
Proof. intros H. rewrite seq_returning by exact H. reflexivity. Qed.

(** The second statement of a sequence runs after the first or not at
    all. *)
Lemma events_seq_cases m n s :
  events (snd (assert.seq m n s)) = events (snd (m s)) \/
  events (snd (assert.seq m n s)) = events (snd (m s)) ++ events (snd (n (fst (m s)))).
Proof.
  destruct (ending (snd (m s))) eqn:E.
  - right. apply events_seq, E.
  - left. rewrite seq_stopping by congruence. reflexivity.
  - left. rewrite seq_stopping by congruence. reflexivity.
Qed.

(** *** Properties of every event and of the state, along a sequence *)

Lemma sound_ret p I : sound p I (@assert.ret S).
Proof. intros s H. split; [reflexivity | exact H]. Qed.

Lemma sound_seq p I m n : sound p I m -> sound p I n -> sound p I (assert.seq m n).
Proof.
  intros H1 H2 s Hs. destruct (H1 s Hs) as [E1 I1].
  destruct (ending (snd (m s))) eqn:E.
  - rewrite seq_returning by exact E. simpl.
    destruct (H2 _ I1) as [E2 I2]. rewrite forallb_app, E1, E2. auto.
  - rewrite seq_stopping by congruence. auto.
  - rewrite seq_stopping by congruence. auto.
Qed.

Lemma sound_call p (I : S -> Prop) (c : callee) f :
  (forall s inner o l, I s -> p (Call c (assert.T s) inner o l) = true) ->
  (forall s, I s -> I (fst (f s))) ->
  sound p I (assert.call c f).
Proof.
  intros Hp Hf s Hs. rewrite call_does. simpl. rewrite Hp by exact Hs. auto.
Qed.

Lemma sound_T_Run p (I : S -> Prop) (t : testing.T) (name : string)
    (F : testing.T -> @assert.body S) :
  (forall s inner o l, I s -> p (Call (SubTest t name) (assert.T s) inner o l) = true) ->
  (forall s, I s -> I (fst (F (testing.SubT t name) s))) ->
  sound p I (assert.T_Run t name F).
Proof.
  intros Hp Hf s Hs. rewrite T_Run_does. simpl. rewrite Hp by exact Hs. auto.
Qed.

(** *** How a sequence ends *)

Lemma first_abort_app (a b : list event) :
  first_abort (a ++ b) =
    match first_abort a with
    | Return => first_abort b
    | o => o
    end.
Proof.
  induction a as [|e a IH]; [reflexivity|].
  destruct e as [? ? | ? | ? | c bnd inner [ | h | reason] l]; simpl; auto.
Qed.

Lemma all_returned_no_abort (evs : list event) :
  forallb call_returned evs = true -> first_abort evs = Return.
Proof.
  induction evs as [|e evs IH]; [reflexivity|].
  destruct e as [? ? | ? | ? | c bnd inner [ | h | reason] l]; simpl;
    try discriminate; exact IH.
Qed.

Lemma tells_ret : tells (@assert.ret S).
Proof. intros s. reflexivity. Qed.

Lemma tells_call (c : callee) f : tells (assert.call c f).
Proof.
  intros s. rewrite call_does. simpl. destruct (ending (snd (f s))); reflexivity.
Qed.

Lemma tells_T_Run (t : testing.T) (name : string) (F : testing.T -> @assert.body S) :
  tells (assert.T_Run t name F).
Proof.
  intros s. rewrite T_Run_does. simpl.
  destruct (assert.after_sub_test _ _ _); reflexivity.
Qed.

Lemma tells_seq m n : tells m -> tells n -> tells (assert.seq m n).
Proof.
  intros Hm Hn s. destruct (ending (snd (m s))) eqn:E.
  - rewrite seq_returning by exact E. simpl.
    rewrite first_abort_app, <- (Hm s), E. apply Hn.
  - rewrite seq_stopping by congruence. apply Hm.
  - rewrite seq_stopping by congruence. apply Hm.
Qed.

(** *** The handle along a sequence *)

Lemma same_handle_refl (a : option testing.T) : same_handle a a = true.
Proof. destruct a; [apply T_eqb_refl | reflexivity]. Qed.

Lemma same_handle_eq (a b : option testing.T) : same_handle a b = true -> a = b.
Proof.
  destruct a, b; simpl; try discriminate; [|reflexivity].
  intros H. f_equal. apply T_eqb_eq, H.
Qed.

Lemma threads_ret : threads (@assert.ret S).
Proof. intros s _. split; reflexivity. Qed.

Lemma threads_call (c : callee) f : threads (assert.call c f).
Proof.
  intros s. rewrite call_does. simpl. rewrite andb_true_r. intros H.
  apply same_handle_eq in H. rewrite same_handle_refl. auto.
Qed.

Lemma threads_T_Run (t : testing.T) (name : string) (F : testing.T -> @assert.body S) :
  threads (assert.T_Run t name F).
Proof.
  intros s. rewrite T_Run_does. simpl. rewrite andb_true_r. intros H.
  apply same_handle_eq in H. rewrite same_handle_refl. auto.
Qed.

Lemma threads_seq m n : threads m -> threads n -> threads (assert.seq m n).
Proof.
  intros Hm Hn s. destruct (ending (snd (m s))) eqn:E.
  - rewrite seq_returning by exact E. simpl. rewrite !forallb_app.
    intros H. apply andb_true_iff in H as [H1 H2].
    destruct (Hm s H1) as [E1 T1]. destruct (Hn _ H2) as [E2 T2].
    rewrite T1 in E2. rewrite E1, E2, T2, T1. auto.
  - rewrite seq_stopping by congruence. apply Hm.
  - rewrite seq_stopping by congruence. apply Hm.
Qed.

Lemma sub_tests_app (a b : list event) :
  sub_tests (a ++ b) = sub_tests a ++ sub_tests b.
Proof.
  induction a as [|e a IH]; [reflexivity|].
  destruct e as [? ? | ? | ? | [ | | p name] bnd inner o l]; simpl; rewrite ?IH; reflexivity.
Qed.

End RunnerFacts.

Section RunnerLoops.

Context {S : Type} {suite_hasT : assert.hasT S}.

Variable t : testing.T.
Variables setup tearDown : option (@assert.body S).

Implicit Types (f m n : @assert.body S) (s : S).

(** A hook, when the suite has it. *)
Local Abbreviation hook c o :=
  (match o with Some f => assert.call c f | None => assert.ret end).

Lemma hook_shape (c : callee) (o : option (@assert.body S)) s :
  map callee_of (events (snd ((hook c o) s))) = map Some (if present o then [c] else []).
Proof.
  destruct o as [f|]; simpl.
  - rewrite call_does. reflexivity.
  - reflexivity.
Qed.

Lemma hook_sub_tests (c : callee) (o : option (@assert.body S)) s :
  (c = SetupTest \/ c = TearDownTest) ->
  sub_tests (events (snd ((hook c o) s))) = [].
Proof.
  intros Hc. destruct o as [f|]; simpl; [|reflexivity].
  rewrite call_does. destruct Hc as [-> | ->]; reflexivity.
Qed.

Lemma sound_hook p (I : S -> Prop) (c : callee) (o : option (@assert.body S)) :
  (forall f s inner e l, o = Some f -> I s -> p (Call c (assert.T s) inner e l) = true) ->
  (forall f s, o = Some f -> I s -> I (fst (f s))) ->
  sound p I (hook c o).
Proof.
  intros Hp Hf. destruct o as [f|].
  - apply sound_call; intros; [eapply Hp | eapply Hf]; eauto.
  - apply sound_ret.
Qed.

Lemma tells_hook (c : callee) (o : option (@assert.body S)) : tells (hook c o).
Proof. destruct o; [apply tells_call | apply tells_ret]. Qed.

Lemma threads_hook (c : callee) (o : option (@assert.body S)) : threads (hook c o).
Proof. destruct o; [apply threads_call | apply threads_ret]. Qed.

(** A property of the calls and of the suite that every hook and every
    sub-test respects is respected by the loop. *)
Lemma sound_range_tests p (I : S -> Prop) (tests : list assert.InternalTest) :
  sound p I (hook SetupTest setup) ->
  sound p I (hook TearDownTest tearDown) ->
  (forall test, In test tests ->
     sound p I (assert.T_Run t (assert.Name test) (assert.F test))) ->
  sound p I (assert.range_tests t setup tearDown tests).
Proof.
  intros Hs Ht. induction tests as [|test rest IH]; intros Htests; simpl.
  - apply sound_ret.
  - repeat apply sound_seq; auto.
    + apply Htests. left. reflexivity.
    + apply IH. intros x Hx. apply Htests. right. exact Hx.
Qed.

(** The loop ends the way the first call that did not return ended. *)
Lemma tells_range_tests (tests : list assert.InternalTest) :
  tells (assert.range_tests t setup tearDown tests).
Proof.
  induction tests as [|test rest IH]; simpl.
  - apply tells_ret.
  - repeat apply tells_seq; auto using tells_hook, tells_T_Run.
Qed.

Lemma threads_range_tests (tests : list assert.InternalTest) :
  threads (assert.range_tests t setup tearDown tests).
Proof.
  induction tests as [|test rest IH]; simpl.
  - apply threads_ret.
  - repeat apply threads_seq; auto using threads_hook, threads_T_Run.
Qed.

(** Whatever the calls do, the calls the loop makes are an initial
    segment of the brackets of its records. *)
Lemma range_tests_prefix (tests : list assert.InternalTest) s :
  exists rest,
    map Some (flat_map (bracket t (present setup) (present tearDown))
                       (map assert.Name tests))
    = map callee_of (events (snd (assert.range_tests t setup tearDown tests s))) ++ rest.
Proof.
  revert s. induction tests as [|test tests IH]; intros s.
  - exists []. reflexivity.
  - cbn [assert.range_tests map flat_map]. unfold bracket at 1.
    set (A := if present setup then [SetupTest] else []).
    set (B := if present tearDown then [TearDownTest] else []).
    set (E := flat_map (bracket t (present setup) (present tearDown))
                (map assert.Name tests)) in *.
    set (X := SubTest t (assert.Name test)).
    set (s1 := fst ((hook SetupTest setup) s)).
    set (s2 := fst (assert.T_Run t (assert.Name test) (assert.F test) s1)).
    set (s3 := fst ((hook TearDownTest tearDown) s2)).
    assert (HA : map callee_of (events (snd ((hook SetupTest setup) s))) = map Some A)
      by apply hook_shape.
    assert (HX : map callee_of
                   (events (snd (assert.T_Run t (assert.Name test) (assert.F test) s1)))
                 = [Some X])
      by (rewrite T_Run_does; reflexivity).
    assert (HB : map callee_of (events (snd ((hook TearDownTest tearDown) s2))) = map Some B)
      by apply hook_shape.
    destruct (IH s3) as [rest0 HE].
    destruct (events_seq_cases (hook SetupTest setup)
                (assert.seq (assert.T_Run t (assert.Name test) (assert.F test))
                   (assert.seq (hook TearDownTest tearDown)
                      (assert.range_tests t setup tearDown tests))) s) as [-> | ->].
    { exists (map Some ([X] ++ B) ++ map Some E).
      rewrite HA, !map_app, <- !app_assoc. reflexivity. }
    fold s1.
    destruct (events_seq_cases (assert.T_Run t (assert.Name test) (assert.F test))
                (assert.seq (hook TearDownTest tearDown)
                   (assert.range_tests t setup tearDown tests)) s1) as [-> | ->].
    { exists (map Some B ++ map Some E).
      rewrite !map_app, HA, HX, <- !app_assoc. reflexivity. }
    fold s2.
    destruct (events_seq_cases (hook TearDownTest tearDown)
                (assert.range_tests t setup tearDown tests) s2) as [-> | ->].
    { exists (map Some E).
      rewrite !map_app, HA, HX, HB, <- !app_assoc. reflexivity. }
    fold s3. exists rest0.
    rewrite !map_app, HA, HX, HB, HE, <- !app_assoc. reflexivity.
Qed.

(** When the loop returns, every call it made returned: it went through
    every bracket, started every record as a sub-test, and every
    sub-test returned from some state. *)
Lemma range_tests_returned (tests : list assert.InternalTest) s :
  ending (snd (assert.range_tests t setup tearDown tests s)) = Return ->
  map callee_of (events (snd (assert.range_tests t setup tearDown tests s))) =
    map Some (flat_map (bracket t (present setup) (present tearDown))
                       (map assert.Name tests)) /\
  sub_tests (events (snd (assert.range_tests t setup tearDown tests s))) =
    map (fun test => (t, assert.Name test)) tests /\
  forall test, In test tests ->
    exists s', ending (snd (assert.T_Run t (assert.Name test) (assert.F test) s')) = Return.
Proof.
  revert s. induction tests as [|test tests IH]; intros s H.
  - split; [reflexivity|]. split; [reflexivity | intros x []].
  - cbn [assert.range_tests] in *.
    apply seq_returned in H as [E1 H].
    pose proof H as H'. apply seq_returned in H' as [E2 H'].
    pose proof H' as H''. apply seq_returned in H'' as [E3 H''].
    destruct (IH _ H'') as [Hshape [Hsubs Heach]].
    rewrite events_seq by exact E1.
    rewrite events_seq by exact E2.
    rewrite events_seq by exact E3.
    split; [|split].
    + rewrite !map_app, (hook_shape SetupTest setup), (hook_shape TearDownTest tearDown).
      rewrite Hshape. rewrite T_Run_does. cbn [events fst snd map callee_of flat_map].
      unfold bracket at 2. rewrite !map_app, <- !app_assoc. reflexivity.
    + rewrite !sub_tests_app, Hsubs.
      rewrite (hook_sub_tests SetupTest setup) by (left; reflexivity).
      rewrite (hook_sub_tests TearDownTest tearDown) by (right; reflexivity).
      rewrite T_Run_does. reflexivity.
    + intros x [<- | Hx]; [eexists; exact E2 | apply Heach, Hx].
Qed.

End RunnerLoops.

Section Discovery.

Context {S : Type} {suite_hasT : assert.hasT S}.

Implicit Types (methods : list (reflect.Method (@assert.body S))).

(** The first loop appends the record of every test method, in order. *)
Lemma discover_appends methods (tests : list assert.InternalTest) :
  assert.discover methods tests = tests ++ map record_of (filter is_test methods).
Proof.
  revert tests. induction methods as [|m rest IH]; intros tests; simpl.
  - rewrite app_nil_r. reflexivity.
  - unfold is_test at 1. destruct (regexp.MatchString_anchored "Test" (reflect.Name m)); simpl.
    + rewrite IH, <- app_assoc. reflexivity.
    + apply IH.
Qed.

Lemma discover_from_nil methods :
  assert.discover methods [] = map record_of (filter is_test methods).
Proof. apply discover_appends. Qed.

Lemma names_of_records methods :
  map assert.Name (map record_of (filter is_test methods)) = test_names methods.
Proof.
  unfold test_names. induction methods as [|m rest IH]; simpl.
  - reflexivity.
  - unfold is_test at 1. destruct (regexp.MatchString_anchored "Test" (reflect.Name m)); simpl.
    + rewrite IH. reflexivity.
    + exact IH.
Qed.

Lemma discovered_is_record methods (test : assert.InternalTest) :
  In test (assert.discover methods []) ->
  exists m, In m methods /\ is_test m = true /\ test = record_of m.
Proof.
  rewrite discover_from_nil. intros H.
  apply in_map_iff in H as [m [<- Hm]]. apply filter_In in Hm as [Hin Hm].
  exists m. auto.
Qed.

Lemma discovered_name methods (test : assert.InternalTest) :
  In test (assert.discover methods []) ->
  existsb (String.eqb (assert.Name test)) (test_names methods) = true.
Proof.
  intros H. apply existsb_exists. exists (assert.Name test).
  split; [|apply String.eqb_refl].
  rewrite <- names_of_records, <- discover_from_nil.
  apply in_map. exact H.
Qed.

End Discovery.

Section RunFacts.

Context {S : Type} {suite_hasT : assert.hasT S}.

Variable methods : list (reflect.Method (@assert.body S)).
Variable t : testing.T.

Lemma Run_unfolds (suite : S) :
  assert.Run methods t suite =
    assert.range_tests t (assert.implements methods "SetupTest")
      (assert.implements methods "TearDownTest")
      (assert.discover methods []) (assert.SetT suite t).
Proof. reflexivity. Qed.

Lemma schedule_of_records :
  flat_map (bracket t (present (assert.implements methods "SetupTest"))
                      (present (assert.implements methods "TearDownTest")))
           (map assert.Name (assert.discover methods []))
  = schedule methods t.
Proof.
  unfold schedule, has_hook. rewrite discover_from_nil, names_of_records. reflexivity.
Qed.

(** Run ends the way the first call that did not return ended; it
    returns when they all returned. *)
Lemma Run_tells (suite : S) :
  ending (snd (assert.Run methods t suite))
    = first_abort (events (snd (assert.Run methods t suite))).
Proof. rewrite Run_unfolds. apply tells_range_tests. Qed.

(** When Run returns, it made the calls of the whole schedule and
    started every test method as a sub-test. *)
Lemma Run_returned (suite : S) :
  ending (snd (assert.Run methods t suite)) = Return ->
  map callee_of (events (snd (assert.Run methods t suite))) = map Some (schedule methods t) /\
  sub_tests (events (snd (assert.Run methods t suite)))
    = map (fun name => (t, name)) (test_names methods).
Proof.
  rewrite Run_unfolds. intros H.
  apply range_tests_returned in H as [Hshape [Hsubs _]].
  split.
  - rewrite Hshape, schedule_of_records. reflexivity.
  - rewrite Hsubs, discover_from_nil, <- names_of_records, !map_map. reflexivity.
Qed.

(** Whatever the hooks and the tests do, the runner only calls hooks the
    suite has and sub-tests named after its test methods. *)
Lemma Run_calls_of_suite (suite : S) :
  forallb (call_of_suite methods t) (events (snd (assert.Run methods t suite))) = true.
Proof.
  rewrite Run_unfolds.
  apply (sound_range_tests t _ _ (call_of_suite methods t) (fun _ => Logic.True)); [| | | exact I].
  - apply sound_hook; [|auto]. intros f s inner e l Hf _. simpl. unfold has_hook.
    rewrite Hf. reflexivity.
  - apply sound_hook; [|auto]. intros f s inner e l Hf _. simpl. unfold has_hook.
    rewrite Hf. reflexivity.
  - intros test Hin. apply sound_T_Run; [|auto]. intros s inner e l _. simpl.
    rewrite T_eqb_refl. apply discovered_name, Hin.
Qed.

Lemma no_call_of_missing_SetupTest (evs : list event) :
  has_hook methods "SetupTest" = false ->
  forallb (call_of_suite methods t) evs = true ->
  existsb calls_SetupTest evs = false.
Proof.
  intros Hno. induction evs as [|e evs IH]; simpl; [reflexivity|].
  intros H. apply andb_true_iff in H as [He Hevs]. rewrite (IH Hevs), orb_false_r.
  destruct e as [ | | | [ | | ] ]; simpl in *; congruence.
Qed.

Lemma no_call_of_missing_TearDownTest (evs : list event) :
  has_hook methods "TearDownTest" = false ->
  forallb (call_of_suite methods t) evs = true ->
  existsb calls_TearDownTest evs = false.
Proof.
  intros Hno. induction evs as [|e evs IH]; simpl; [reflexivity|].
  intros H. apply andb_true_iff in H as [He Hevs]. rewrite (IH Hevs), orb_false_r.
  destruct e as [ | | | [ | | ] ]; simpl in *; congruence.
Qed.

(** When every call leaves the handle it found, every call is made with
    the handle that [SetT] left in the suite, and Run leaves it
    there. *)
Lemma Run_threads (suite : S) :
  forallb leaves_binding (events (snd (assert.Run methods t suite))) = true ->
  forallb (entered_with (assert.T (assert.SetT suite t)))
          (events (snd (assert.Run methods t suite))) = true /\
  assert.T (fst (assert.Run methods t suite)) = assert.T (assert.SetT suite t).
Proof. rewrite Run_unfolds. apply threads_range_tests. Qed.

End RunFacts.

(** ** A fatal failure inside a sub-test *)

Lemma T_not_its_own_child (t : testing.T) (name : string) :
  testing.T_eqb t (testing.SubT t name) = false.
Proof.
  revert name. induction t as [n | p IH n]; intros name; simpl.
  - reflexivity.
  - rewrite IH. apply andb_false_r.
Qed.

(** The test methods only see the handle of the suite, which is the
    parent of every sub-test: when one of them ends through FailNow on
    it, [t.Run] does not return to the loop. *)
Lemma T_Run_after_FailNow_on_parent
    {S : Type} {suite_hasT : assert.hasT S}
    (t : testing.T) (name : string) (F : testing.T -> @assert.body S) (s : S) :
  ending (snd (F (testing.SubT t name) s)) = Goexit t ->
  ending (snd (assert.T_Run t name F s)) = Goexit t.
Proof.
  intros H. rewrite T_Run_does. simpl. rewrite H. unfold assert.after_sub_test.
  rewrite T_not_its_own_child.
  destruct t; simpl; rewrite ?String.eqb_refl, ?T_eqb_refl; reflexivity.
Qed.

(** A hook that ends through FailNow ends the loop on the spot: the hooks
    run on the goroutine of [Run] itself. *)
Lemma range_tests_after_fatal_SetupTest
    {S : Type} {suite_hasT : assert.hasT S}
    (t h : testing.T) (setup : @assert.body S) (tearDown : option (@assert.body S))
    (test : assert.InternalTest) (rest : list assert.InternalTest) (s : S) :
  ending (snd (setup s)) = Goexit h ->
  assert.range_tests t (Some setup) tearDown (test :: rest) s
    = assert.call SetupTest setup s.
Proof.
  intros H. simpl. apply seq_stopping. rewrite call_does. simpl. rewrite H. discriminate.
Qed.

(** ** Properties of Run *)

Lemma forallb_same {A : Type} (f g : A -> bool) (l : list A) :
  (forall a, f a = g a) -> forallb f l = forallb g l.
Proof.
  intros H. induction l as [|a l IH]; simpl; [reflexivity|].
  rewrite H, IH. reflexivity.
Qed.

Lemma entered_with_handle (t : testing.T) (e : event) :
  entered_with (Some t) e = bound_is t e.
Proof. destruct e as [? ? | ? | ? | c [h|] inner o l]; reflexivity. Qed.

(** C1, as amended. When every call the runner makes during the run
    returns to it, the runner makes exactly these calls, in this order:
    for each method whose name starts with Test, in enumeration order,
    SetupTest when the suite has it, the sub-test, TearDownTest when the
    suite has it; and Run returns. *)
Theorem Run_brackets_each_test
    {S : Type} {suite_hasT : assert.hasT S}
    (methods : list (reflect.Method (@assert.body S))) (t : testing.T) (suite : S) :
  forallb call_returned (events (snd (assert.Run methods t suite))) = true ->
  map callee_of (events (snd (assert.Run methods t suite))) = map Some (schedule methods t) /\
  ending (snd (assert.Run methods t suite)) = Return.
Proof.
  intros H.
  assert (E : ending (snd (assert.Run methods t suite)) = Return)
    by (rewrite Run_tells; apply all_returned_no_abort, H).
  split; [apply Run_returned, E | exact E].
Qed.

Lemma Run_brackets_each_test_witness :
  forallb call_returned (events (snd (assert.Run Demo.fixture Demo.top Demo.fresh))) = true /\
  map callee_of (events (snd (assert.Run Demo.fixture Demo.top Demo.fresh))) =
    [Some SetupTest; Some (SubTest Demo.top "TestA"); Some TearDownTest;
     Some SetupTest; Some (SubTest Demo.top "TestB"); Some TearDownTest].
Proof.
  split; [reflexivity|].
  exact (proj1 (Run_brackets_each_test Demo.fixture Demo.top Demo.fresh eq_refl)).
Defined.

(** C1, as stated, fails: TestA of [Demo.fatal] calls Fail on the handle
    of the suite; the runner is in the middle of TestA's bracket and
    stops there, without TearDownTest and without TestB. *)
Lemma Run_stops_at_a_fatal_test :
  let r := snd (assert.Run Demo.fatal Demo.top Demo.fresh) in
  schedule Demo.fatal Demo.top =
    [SetupTest; SubTest Demo.top "TestA"; TearDownTest;
     SetupTest; SubTest Demo.top "TestB"; TearDownTest] /\
  map callee_of (events r) = [Some SetupTest; Some (SubTest Demo.top "TestA")] /\
  ending r = Goexit Demo.top /\
  map callee_of (events r) <> map Some (schedule Demo.fatal Demo.top).
Proof.
  cbv zeta. split; [reflexivity|]. split; [reflexivity|]. split; [reflexivity|].
  intros H. vm_compute in H. discriminate H.
Qed.



(** C3, as amended. On a suite whose T() returns the handle that SetT
    stored (as the methods of TestSuite do), and as long as every call
    of the run leaves bound the handle it found, every hook and every
    test is entered with [T()] equal to the [t] that Run was given, and
    Run leaves [t] bound. *)
Theorem Run_binds_the_handle_first
    {S : Type} {suite_hasT : assert.hasT S}
    (methods : list (reflect.Method (@assert.body S))) (t : testing.T) (suite : S) :
  assert.T (assert.SetT suite t) = Some t ->
  forallb leaves_binding (events (snd (assert.Run methods t suite))) = true ->
  forallb (bound_is t) (events (snd (assert.Run methods t suite))) = true /\
  assert.T (fst (assert.Run methods t suite)) = Some t.
Proof.
  intros Hset Hleave.
  destruct (Run_threads methods t suite Hleave) as [Hin Hout].
  rewrite Hset in Hin, Hout. split; [|exact Hout].
  rewrite <- Hin. apply forallb_same. intros e. symmetry. apply entered_with_handle.
Qed.

Lemma Run_binds_the_handle_first_witness :
  forallb (bound_is Demo.top) (events (snd (assert.Run Demo.full Demo.top Demo.fresh))) = true /\
  List.length (events (snd (assert.Run Demo.full Demo.top Demo.fresh))) = 6%nat.
Proof.
  split; [|reflexivity].
  exact (proj1 (Run_binds_the_handle_first Demo.full Demo.top Demo.fresh eq_refl eq_refl)).
Defined.

(** C3, as stated, fails.  TestA of [Demo.rebinding] calls SetT with
    another handle: TearDownTest, which runs next, finds that handle, and
    Run leaves it bound.  And a suite whose own SetT does not keep the
    handle never has it: TestA of [Demo.deaf_methods] is entered with
    [T()] nil. *)
Lemma Run_does_not_keep_the_handle_bound :
  map (bound_is Demo.top) (events (snd (assert.Run Demo.rebinding Demo.top Demo.fresh)))
    = [true; false] /\
  map callee_of (events (snd (assert.Run Demo.rebinding Demo.top Demo.fresh)))
    = [Some (SubTest Demo.top "TestA"); Some TearDownTest] /\
  assert.T (fst (assert.Run Demo.rebinding Demo.top Demo.fresh)) = Some Demo.other /\
  map (entered_with None)
      (events (snd (assert.Run Demo.deaf_methods Demo.top (Demo.mkDeaf []))))
    = [true].
Proof. repeat split. Qed.

(** C8, as amended. A suite without SetupTest, without TearDownTest or
    without both: whatever the tests do, the runner never calls the hook
    that is missing; Run ends the way the first call that did not return
    ended, and returns, after the whole schedule, when every call it
    makes returns. *)
Theorem Run_skips_missing_hooks
    {S : Type} {suite_hasT : assert.hasT S}
    (methods : list (reflect.Method (@assert.body S))) (t : testing.T) (suite : S) :
  assert.implements methods "SetupTest" = None \/
  assert.implements methods "TearDownTest" = None ->
  (assert.implements methods "SetupTest" = None ->
   existsb calls_SetupTest (events (snd (assert.Run methods t suite))) = false) /\
  (assert.implements methods "TearDownTest" = None ->
   existsb calls_TearDownTest (events (snd (assert.Run methods t suite))) = false) /\
  ending (snd (assert.Run methods t suite))
    = first_abort (events (snd (assert.Run methods t suite))) /\
  (forallb call_returned (events (snd (assert.Run methods t suite))) = true ->
   ending (snd (assert.Run methods t suite)) = Return /\
   map callee_of (events (snd (assert.Run methods t suite))) = map Some (schedule methods t)).
Proof.
  intros _. split; [|split; [|split]].
  - intros Hno. apply (no_call_of_missing_SetupTest methods t).
    + unfold has_hook. rewrite Hno. reflexivity.
    + apply Run_calls_of_suite.
  - intros Hno. apply (no_call_of_missing_TearDownTest methods t).
    + unfold has_hook. rewrite Hno. reflexivity.
    + apply Run_calls_of_suite.
  - apply Run_tells.
  - intros H.
    assert (E : ending (snd (assert.Run methods t suite)) = Return)
      by (rewrite Run_tells; apply all_returned_no_abort, H).
    split; [exact E | apply Run_returned, E].
Qed.

Lemma Run_skips_missing_hooks_witness :
  assert.implements Demo.bare "SetupTest" = None /\
  ending (snd (assert.Run Demo.bare Demo.top Demo.fresh)) = Return /\
  map callee_of (events (snd (assert.Run Demo.bare Demo.top Demo.fresh))) =
    [Some (SubTest Demo.top "TestA"); Some (SubTest Demo.top "TestB")].
Proof.
  split; [reflexivity|].
  exact (proj2 (proj2 (proj2
           (Run_skips_missing_hooks Demo.bare Demo.top Demo.fresh (or_introl eq_refl))))
         eq_refl).
Defined.

(** C8, as stated, fails: [Demo.bare_fatal] has neither hook, and Run
    does not complete normally: TestA calls Fail on the handle of the
    suite, Run ends there and TestB is not run. *)
Lemma Run_without_hooks_stops_at_a_fatal_test :
  let r := snd (assert.Run Demo.bare_fatal Demo.top Demo.fresh) in
  assert.implements Demo.bare_fatal "SetupTest" = None /\
  assert.implements Demo.bare_fatal "TearDownTest" = None /\
  map callee_of (events r) = [Some (SubTest Demo.top "TestA")] /\
  ending r = Goexit Demo.top /\
  ending r <> Return.
Proof.
  cbv zeta. repeat split.
  intros H. vm_compute in H. discriminate H.
Qed.

(** ** Examples *)

(** Contains passes on a substring and fails on a string that does not
    occur. *)
Example Contains_hello_world :
  assert.Contains (Demo.in_method 7) (Some Demo.top) "hello world" "world" [] = done /\
  reports_failure Demo.top
    (assert.Contains (Demo.in_method 7) (Some Demo.top) "hello world" "xyz" []) = true.
Proof. split; reflexivity. Qed.

(** The run of [Demo.full]: TestA reports a failure that is not fatal,
    goes on, and the suite ends with the notes of both brackets. *)
Example Run_full_log :
  assert.fields (fst (assert.Run Demo.full Demo.top Demo.fresh))
    = ["setup"; "a1"; "a2"; "teardown"; "setup"; "b"; "teardown"] /\
  ending (snd (assert.Run Demo.full Demo.top Demo.fresh)) = Return.
Proof. split; reflexivity. Qed.

(** The run of [Demo.fatal] stops inside TestA: nothing after the call
    of Fail is noted, neither by TestA nor by TearDownTest nor by
    TestB. *)
Example Run_fatal_log :
  assert.fields (fst (assert.Run Demo.fatal Demo.top Demo.fresh)) = ["setup"; "a1"].
Proof. reflexivity. Qed.

(** A test that binds another handle is seen by what runs after it. *)
Example Run_rebinding_trace :
  map (bound_is Demo.top) (events (snd (assert.Run Demo.rebinding Demo.top Demo.fresh)))
    = [true; false].
Proof. reflexivity. Qed.

(** * Further properties *)

(** ** Strings *)

Lemma length_append (a b : string) :
  String.length (a ++ b)%string = (String.length a + String.length b)%nat.
Proof. induction a as [|c a IH]; simpl; [reflexivity | rewrite IH; reflexivity]. Qed.

Lemma substring_all (b : string) : String.substring 0 (String.length b) b = b.
Proof. induction b as [|c b IH]; simpl; [reflexivity | rewrite IH; reflexivity]. Qed.

Lemma substring_after (a b : string) :
  String.substring (String.length a) (String.length b) (a ++ b)%string = b.
Proof. induction a as [|c a IH]; simpl; [apply substring_all | exact IH]. Qed.

Lemma cut_after (a b : string) :
  strings.cut (a ++ b)%string (Z.of_nat (String.length a)) = b.
Proof.
  unfold strings.cut. rewrite Nat2Z.id, length_append.
  replace (String.length a + String.length b - String.length a)%nat
    with (String.length b) by lia.
  apply substring_after.
Qed.

Lemma prefix_occurs (n s : string) :
  String.prefix n s = true <-> exists b, s = (n ++ b)%string.
Proof.
  revert s. induction n as [|c n IH]; intros s.
  - split; [intros _; exists s; reflexivity | intros _; destruct s; reflexivity].
  - destruct s as [|d s]; simpl.
    + split; [discriminate | intros [b Hb]; discriminate Hb].
    + destruct (Ascii.ascii_dec c d) as [-> | Hne].
      * rewrite IH. split; intros [b Hb]; exists b; congruence.
      * split; [discriminate | intros [b Hb]; congruence].
Qed.

Lemma Contains_unfold (s n : string) :
  strings.Contains s n =
    String.prefix n s ||
    match s with
    | EmptyString => false
    | String.String _ s' => strings.Contains s' n
    end.
Proof. destruct s; reflexivity. Qed.

(** [strings.Contains] answers whether the substring occurs. *)
Lemma Contains_occurs (s n : string) :
  strings.Contains s n = true <-> exists a b, s = (a ++ n ++ b)%string.
Proof.
  split.
  - induction s as [|c s IH]; rewrite Contains_unfold; intros H;
      apply orb_true_iff in H as [H | H].
    + apply prefix_occurs in H as [b Hb]. exists ""%string, b. exact Hb.
    + discriminate H.
    + apply prefix_occurs in H as [b Hb]. exists ""%string, b. exact Hb.
    + destruct (IH H) as [a [b Hab]]. exists (String.String c a), b.
      simpl. rewrite Hab. reflexivity.
  - intros [a [b Hab]]. subst s. induction a as [|c a IH]; rewrite Contains_unfold.
    + apply orb_true_iff. left. apply prefix_occurs. exists b. reflexivity.
    + apply orb_true_iff. right. exact IH.
Qed.

(** Where the last slash is: [strings.LastIndex] answers -1 when there is
    none, and otherwise the length of what stands before a slash that no
    slash follows. *)
Lemma LastIndex_from_slash (s : string) (i : Z) :
  0 <= i ->
  (strings.LastIndex_from i s "/" = -1 /\ strings.Contains s "/" = false) \/
  (exists d b, s = (d ++ "/" ++ b)%string /\ strings.Contains b "/" = false /\
               strings.LastIndex_from i s "/" = i + Z.of_nat (String.length d)).
Proof.
  revert i. induction s as [|c s IH]; intros i Hi.
  - left. split; reflexivity.
  - change (strings.LastIndex_from i (String.String c s) "/")
      with (if 0 <=? strings.LastIndex_from (i + 1) s "/"
            then strings.LastIndex_from (i + 1) s "/"
            else if String.prefix "/" (String.String c s) then i else -1).
    destruct (IH (i + 1) ltac:(lia)) as [[E Hno] | [d [b [Hs [Hb E]]]]].
    + rewrite E. change (0 <=? -1) with false. cbv iota.
      rewrite Contains_unfold, Hno, orb_false_r.
      destruct (String.prefix "/" (String.String c s)) eqn:P.
      * right. apply prefix_occurs in P as [b Hb]. injection Hb as -> ->.
        exists ""%string, b. simpl. repeat split; [exact Hno | lia].
      * left. split; reflexivity.
    + right. exists (String.String c d), b. rewrite E.
      destruct (Z.leb_spec 0 (i + 1 + Z.of_nat (String.length d))); [|lia].
      subst s. repeat split; [exact Hb|]. simpl String.length. lia.
Qed.

Lemma append_assoc (a b c : string) :
  ((a ++ b) ++ c)%string = (a ++ b ++ c)%string.
Proof. induction a as [|x a IH]; simpl; [reflexivity | rewrite IH; reflexivity]. Qed.

(** X1. The file name a helper prints is the path of the frame with its
    directories cut off: the path is some directory part, empty or ending
    in a slash, followed by the name, and the name has no slash. *)
Theorem base_name_strips_directories (file : string) :
  exists dir base : string,
    assert.base_name file = Some base /\
    file = (dir ++ base)%string /\
    strings.Contains base "/" = false /\
    (dir = ""%string \/ exists d, dir = (d ++ "/")%string).
Proof.
  rewrite base_name_in_range. unfold strings.LastIndex.
  destruct (LastIndex_from_slash file 0 ltac:(lia)) as [[E Hno] | [d [b [Hs [Hb E]]]]].
  - exists ""%string, file. rewrite E.
    repeat split; [| exact Hno | left; reflexivity].
    f_equal. apply (cut_after "" file).
  - exists (d ++ "/")%string, b. rewrite E, Hs, <- append_assoc.
    repeat split; [| exact Hb | right; exists d; reflexivity].
    f_equal.
    replace (0 + Z.of_nat (String.length d) + 1)
      with (Z.of_nat (String.length (d ++ "/")%string))
      by (rewrite length_append; simpl String.length; lia).
    apply cut_after.
Qed.

(** X2. Contains passes exactly when the needle occurs somewhere in the
    haystack; in particular the empty needle always passes. *)
Theorem Contains_passes_iff_substring
    (cs : runtime.stack) (t : testing.T) (haystack needle : string) (msg : list string) :
  (reports_failure t (assert.Contains cs (Some t) haystack needle msg) = false <->
   exists a b, haystack = (a ++ needle ++ b)%string) /\
  assert.Contains cs (Some t) haystack "" msg = done.
Proof.
  split.
  - rewrite <- Contains_occurs. unfold assert.Contains.
    destruct (strings.Contains haystack needle); cbn [negb]; autorewrite with helpers.
    + split; reflexivity.
    + split; discriminate.
  - unfold assert.Contains.
    replace (strings.Contains haystack "") with true; [reflexivity|].
    symmetry. apply Contains_occurs. exists ""%string, haystack. reflexivity.
Qed.

Lemma Contains_passes_iff_substring_witness :
  reports_failure Demo.top
    (assert.Contains (Demo.in_method 9) (Some Demo.top) "hello world" "o w" []) = false.
Proof.
  apply (proj1 (Contains_passes_iff_substring (Demo.in_method 9) Demo.top
                  "hello world" "o w" [])).
  exists "hell"%string, "orld"%string. reflexivity.
Defined.

Section Reports.

Variable cs : runtime.stack.
Variable t : testing.T.

Ltac expose :=
  unfold invoke, assert.NotEqual, assert.EqualValues, assert.Equal, assert.NoError,
    assert.Error, assert.True, assert.False, assert.Contains, assert.CheckEquals,
    assert.Assert, assert.Fail, assert.EqualValues.

Ltac branches :=
  repeat match goal with
    | |- context [if ?c then _ else _] => destruct c
    | |- context [match Go.ifaceEq ?a ?b with _ => _ end] => destruct (Go.ifaceEq a b) as [[|]|]
    | |- context [let '(_, _) := ?p in _] => destruct p
    | |- context [assert.base_name ?f] => rewrite (base_name_in_range f)
    end.

Lemma invoke_effects (h : helper) :
  invoke cs (Some t) h = done \/
  invoke cs (Some t) h = ([], Panic "runtime error: comparing uncomparable type") \/
  exists format args, invoke cs (Some t) h = ([Printf format args; TFail t], Return).
Proof.
  destruct h; expose; branches; try rewrite !Errorf_does; unfold andThen;
    cbn [events ending fst snd app]; eauto.
Qed.

End Reports.

(** X3. A helper has no effect at all, or it prints exactly one line and
    then marks the handle it was given, once; CheckEquals may instead
    panic before doing anything.  Fail prints one line and then calls
    FailNow on its handle. *)
Theorem helpers_print_once_then_mark
    (cs : runtime.stack) (t : testing.T) (h : helper) (text : string) :
  (invoke cs (Some t) h = done \/
   invoke cs (Some t) h = ([], Panic "runtime error: comparing uncomparable type") \/
   exists format args, invoke cs (Some t) h = ([Printf format args; TFail t], Return)) /\
  exists format args, assert.Fail cs (Some t) text = ([Printf format args; TFailNow t], Goexit t).
Proof.
  split; [apply invoke_effects|].
  rewrite Fail_does. eauto.
Qed.

(** X4. Called from line [line] of [file], every helper but Equal prints
    the base name of [file] and [line] when it reports, and Fail does the
    same. *)
Theorem helpers_print_the_call_site
    (cs : runtime.stack) (t : testing.T) (h : helper) (text : string)
    (file base : string) (line : Z) :
  is_hEqual h = false ->
  assert.base_name file = Some base ->
  reports_failure t (invoke ((file, line) :: cs) (Some t) h) = true ->
  location (invoke ((file, line) :: cs) (Some t) h) = Some (base, line) /\
  location (assert.Fail ((file, line) :: cs) (Some t) text) = Some (base, line).
Proof.
  intros Hne Hbase Hrep. split.
  - revert Hrep.
    destruct h; try discriminate Hne;
      unfold invoke, assert.NotEqual, assert.EqualValues, assert.NoError,
        assert.Error, assert.True, assert.False, assert.Contains, assert.CheckEquals,
        assert.Assert, assert.Errorf, runtime.Caller, assert.at_line;
      cbn [nth]; rewrite ?Hbase;
      repeat match goal with
        | |- context [if ?c then _ else _] => destruct c
        | |- context [match Go.ifaceEq ?a ?b with _ => _ end] =>
            destruct (Go.ifaceEq a b) as [[|]|]
        end;
      try reflexivity; try discriminate.
  - unfold assert.Fail, runtime.Caller, assert.at_line. cbn [nth].
    rewrite Hbase. reflexivity.
Qed.

Lemma helpers_print_the_call_site_witness :
  location (invoke (Demo.in_method 21) (Some Demo.top) (hTrue false ["flag"]))
    = Some ("suite_test.go"%string, 21) /\
  location (assert.Fail (Demo.in_method 21) (Some Demo.top) "stop")
    = Some ("suite_test.go"%string, 21).
Proof.
  exact (helpers_print_the_call_site
           [("/usr/local/go/src/reflect/value.go"%string, 380)] Demo.top
           (hTrue false ["flag"]) "stop"
           "/home/dev/proj/suite_test.go" "suite_test.go" 21
           eq_refl eq_refl eq_refl).
Defined.

(** ** Comparing values *)

(** Induction on a value, with its parts. *)
Lemma value_induction (P : Go.value -> Prop) :
  (forall b, P (Go.VBool b)) ->
  (forall n, P (Go.VInt n)) ->
  (forall n, P (Go.VInt64 n)) ->
  (forall s, P (Go.VString s)) ->
  (forall e, P (Go.VPointer e None)) ->
  (forall e a v, P v -> P (Go.VPointer e (Some (a, v)))) ->
  (forall e, P (Go.VSlice e None)) ->
  (forall e a l, Forall P l -> P (Go.VSlice e (Some (a, l)))) ->
  (forall n l, Forall P l -> P (Go.VStruct n l)) ->
  (forall c, P (Go.VFunc c)) ->
  forall v, P v.
Proof.
  intros HB HI HI64 HS HPn HP HSn HSl HSt HF.
  fix IH 1.
  intros [b | n | n | s | e [[a v] | ] | e [[a l] | ] | n l | c];
    try solve [clear IH; auto].
  - apply HP, IH.
  - apply HSl. induction l as [|x l IHl]; constructor; [apply IH | exact IHl].
  - apply HSt. induction l as [|x l IHl]; constructor; [apply IH | exact IHl].
Qed.

(** Element-wise comparison of two lists, as the comparisons of structs
    and slices go through their fields and elements. *)
Lemma all2_ext (f g : Go.value -> Go.value -> bool) (l : list Go.value) :
  Forall (fun x => forall y, f x y = g x y) l ->
  forall l',
    (fix all2 (l1 l2 : list Go.value) : bool :=
       match l1, l2 with
       | [], [] => true
       | v :: l1', w :: l2' => f v w && all2 l1' l2'
       | _, _ => false
       end) l l' =
    (fix all2 (l1 l2 : list Go.value) : bool :=
       match l1, l2 with
       | [], [] => true
       | v :: l1', w :: l2' => g v w && all2 l1' l2'
       | _, _ => false
       end) l l'.
Proof.
  induction 1 as [|x l Hx Hl IH]; intros [|y l']; try reflexivity.
  rewrite Hx, IH. reflexivity.
Qed.

Lemma all2_sym (f : Go.value -> Go.value -> bool) (l : list Go.value) :
  Forall (fun x => forall y, f x y = f y x) l ->
  forall l',
    (fix all2 (l1 l2 : list Go.value) : bool :=
       match l1, l2 with
       | [], [] => true
       | v :: l1', w :: l2' => f v w && all2 l1' l2'
       | _, _ => false
       end) l l' =
    (fix all2 (l1 l2 : list Go.value) : bool :=
       match l1, l2 with
       | [], [] => true
       | v :: l1', w :: l2' => f v w && all2 l1' l2'
       | _, _ => false
       end) l' l.
Proof.
  induction 1 as [|x l Hx Hl IH]; intros [|y l']; try reflexivity.
  rewrite Hx, IH. reflexivity.
Qed.

Lemma all2_imp (f g : Go.value -> Go.value -> bool) (l : list Go.value) :
  Forall (fun x => forall y, f x y = true -> g x y = true) l ->
  forall l',
    (fix all2 (l1 l2 : list Go.value) : bool :=
       match l1, l2 with
       | [], [] => true
       | v :: l1', w :: l2' => f v w && all2 l1' l2'
       | _, _ => false
       end) l l' = true ->
    (fix all2 (l1 l2 : list Go.value) : bool :=
       match l1, l2 with
       | [], [] => true
       | v :: l1', w :: l2' => g v w && all2 l1' l2'
       | _, _ => false
       end) l l' = true.
Proof.
  induction 1 as [|x l Hx Hl IH]; intros [|y l']; try (reflexivity || discriminate).
  intros H. apply andb_true_iff in H as [H1 H2].
  rewrite (Hx _ H1), (IH _ H2). reflexivity.
Qed.

Lemma deepValueEqual_sym (x y : Go.value) :
  Go.deepValueEqual x y = Go.deepValueEqual y x.
Proof.
  revert y. induction x using value_induction; intros y; destruct y; try reflexivity.
  - simpl. match goal with |- Bool.eqb ?p ?q = _ => destruct p, q; reflexivity end.
  - simpl. apply Z.eqb_sym.
  - simpl. apply Z.eqb_sym.
  - simpl. apply String.eqb_sym.
  - destruct target as [[b w] | ]; reflexivity.
  - destruct target as [[b w] | ]; [|reflexivity].
    simpl. rewrite IHx, Nat.eqb_sym. reflexivity.
  - destruct data as [[b l'] | ]; reflexivity.
  - destruct data as [[b l'] | ]; [|reflexivity].
    cbn [Go.deepValueEqual].
    rewrite (Nat.eqb_sym (List.length l)), (Nat.eqb_sym a).
    rewrite (all2_sym Go.deepValueEqual l H l'). reflexivity.
  - cbn [Go.deepValueEqual]. apply (all2_sym Go.deepValueEqual l H).
  - destruct c as [c | ], code as [d | ]; reflexivity.
Qed.

Lemma valueEq_sym (x y : Go.value) :
  Go.valueEq x y = Go.valueEq y x.
Proof.
  revert y. induction x using value_induction; intros y; destruct y; try reflexivity.
  - simpl. match goal with |- Bool.eqb ?p ?q = _ => destruct p, q; reflexivity end.
  - simpl. apply Z.eqb_sym.
  - simpl. apply Z.eqb_sym.
  - simpl. apply String.eqb_sym.
  - destruct target as [[b w] | ]; reflexivity.
  - destruct target as [[b w] | ]; [|reflexivity].
    simpl. apply Nat.eqb_sym.
  - cbn [Go.valueEq]. apply (all2_sym Go.valueEq l H).
Qed.

(** What [==] accepts, [reflect.DeepEqual] accepts. *)
Lemma valueEq_deepValueEqual (x y : Go.value) :
  Go.valueEq x y = true -> Go.deepValueEqual x y = true.
Proof.
  revert y. induction x using value_induction; intros y; destruct y;
    try (intros H; exact H); try (simpl; discriminate).
  - destruct target as [[b w] | ]; simpl; [|discriminate].
    intros ->. reflexivity.
  - cbn [Go.valueEq Go.deepValueEqual].
    apply (all2_imp Go.valueEq Go.deepValueEqual l H).
Qed.

(** On plain values, the two comparisons are one. *)
Lemma plain_valueEq (x : Go.value) :
  plain x = true -> forall y, Go.valueEq x y = Go.deepValueEqual x y.
Proof.
  induction x using value_induction; intros Hp y; try discriminate Hp;
    destruct y; try reflexivity.
  cbn [Go.valueEq Go.deepValueEqual].
  apply (all2_ext Go.valueEq Go.deepValueEqual).
  cbn [plain] in Hp. revert Hp.
  induction H as [|x l Hx Hl IH]; intros Hp; constructor.
  - apply andb_true_iff in Hp as [Hp _]. apply Hx, Hp.
  - apply andb_true_iff in Hp as [_ Hp]. apply IH, Hp.
Qed.

Lemma plain_comparable (x : Go.value) :
  plain x = true -> Go.comparable (Go.TypeOf x) = true.
Proof.
  induction x using value_induction; intros Hp; try discriminate Hp; try reflexivity.
  cbn [plain] in Hp. cbn [Go.TypeOf Go.comparable]. revert Hp.
  induction H as [|x l Hx Hl IH]; intros Hp; [reflexivity|].
  apply andb_true_iff in Hp as [Hp1 Hp2].
  cbn [map]. rewrite (Hx Hp1), (IH Hp2). reflexivity.
Qed.

Lemma type_eqb_eq : forall a b : Go.type, Go.type_eqb a b = true -> a = b.
Proof.
  fix IH 1.
  intros [ | | | | e | e | n f | ] [ | | | | e' | e' | n' f' | ]; simpl;
    try reflexivity; try discriminate.
  - intros H. f_equal. apply IH, H.
  - intros H. f_equal. apply IH, H.
  - intros H. apply andb_true_iff in H as [Hn Hf]. apply String.eqb_eq in Hn. subst n'.
    f_equal. revert f' Hf.
    induction f as [|a f IHf]; intros [|b f'] Hf; try reflexivity; try discriminate.
    apply andb_true_iff in Hf as [Hab Hf]. f_equal; [apply IH, Hab | apply IHf, Hf].
Qed.

Lemma DeepEqual_sym (a b : Go.iface) : Go.DeepEqual a b = Go.DeepEqual b a.
Proof.
  destruct a as [x|], b as [y|]; try reflexivity.
  unfold Go.DeepEqual. rewrite type_eqb_sym, deepValueEqual_sym. reflexivity.
Qed.

Lemma ifaceEq_sym (a b : Go.iface) : Go.ifaceEq a b = Go.ifaceEq b a.
Proof.
  destruct a as [x|], b as [y|]; try reflexivity.
  unfold Go.ifaceEq. rewrite (type_eqb_sym (Go.TypeOf y)).
  destruct (Go.type_eqb (Go.TypeOf x) (Go.TypeOf y)) eqn:E; [|reflexivity].
  apply type_eqb_eq in E. rewrite E, valueEq_sym. reflexivity.
Qed.

Lemma Equal_reports (cs : runtime.stack) (t : testing.T) (a b : Go.iface) (msg : list string) :
  reports_failure t (assert.Equal cs (Some t) a b msg) = negb (Go.DeepEqual a b).
Proof.
  unfold assert.Equal, assert.EqualValues, assert.ObjectsAreEqualValues.
  destruct (Go.DeepEqual a b); cbn [negb]; autorewrite with helpers; reflexivity.
Qed.

Lemma NotEqual_reports (cs : runtime.stack) (t : testing.T) (a b : Go.iface) (msg : list string) :
  reports_failure t (assert.NotEqual cs (Some t) a b msg) = Go.DeepEqual a b.
Proof.
  unfold assert.NotEqual, assert.ObjectsAreEqualValues.
  destruct (Go.DeepEqual a b); autorewrite with helpers; reflexivity.
Qed.

Lemma CheckEquals_reports (cs : runtime.stack) (t : testing.T) (actual expected note : Go.iface) :
  reports_failure t (assert.CheckEquals cs (Some t) actual expected note) =
    match Go.ifaceEq expected actual with
    | Some false => true
    | _ => false
    end.
Proof.
  destruct (Go.ifaceEq expected actual) as [[|]|] eqn:E.
  - unfold assert.CheckEquals. rewrite E. reflexivity.
  - apply CheckEquals_mismatch, E.
  - unfold assert.CheckEquals. rewrite E. reflexivity.
Qed.

Lemma CheckEquals_panics (cs : runtime.stack) (t : testing.T) (actual expected note : Go.iface) :
  panics (assert.CheckEquals cs (Some t) actual expected note) =
    match Go.ifaceEq expected actual with
    | None => true
    | _ => false
    end.
Proof.
  destruct (Go.ifaceEq expected actual) as [[|]|] eqn:E.
  - unfold assert.CheckEquals. rewrite E. reflexivity.
  - unfold panics. rewrite (proj2 (CheckEquals_mismatch cs t actual expected note E)).
    reflexivity.
  - unfold assert.CheckEquals. rewrite E. reflexivity.
Qed.

(** X5. Which of the two compared values comes first changes neither
    whether Equal, NotEqual or CheckEquals reports a failure nor whether
    CheckEquals panics. *)
Theorem comparisons_ignore_the_order
    (cs : runtime.stack) (t : testing.T) (a b note : Go.iface) (msg : list string) :
  reports_failure t (assert.Equal cs (Some t) a b msg)
    = reports_failure t (assert.Equal cs (Some t) b a msg) /\
  reports_failure t (assert.NotEqual cs (Some t) a b msg)
    = reports_failure t (assert.NotEqual cs (Some t) b a msg) /\
  reports_failure t (assert.CheckEquals cs (Some t) a b note)
    = reports_failure t (assert.CheckEquals cs (Some t) b a note) /\
  panics (assert.CheckEquals cs (Some t) a b note) = panics (assert.CheckEquals cs (Some t) b a note).
Proof.
  rewrite !Equal_reports, !NotEqual_reports, !CheckEquals_reports, !CheckEquals_panics.
  rewrite (DeepEqual_sym a b), (ifaceEq_sym b a). auto.
Qed.

(** X6. CheckEquals is the stricter check: whenever it passes, Equal on
    the same two values passes as well. *)
Theorem CheckEquals_pass_implies_Equal_pass
    (cs : runtime.stack) (t : testing.T) (a b note : Go.iface) (msg : list string) :
  assert.CheckEquals cs (Some t) a b note = done ->
  assert.Equal cs (Some t) a b msg = done.
Proof.
  intros H.
  assert (E : Go.ifaceEq b a = Some true).
  { pose proof (CheckEquals_reports cs t a b note) as Hr.
    pose proof (CheckEquals_panics cs t a b note) as Hp.
    rewrite H in Hr, Hp.
    destruct (Go.ifaceEq b a) as [[|]|]; [reflexivity | discriminate Hr | discriminate Hp]. }
  assert (D : Go.DeepEqual a b = true).
  { destruct a as [x|], b as [y|]; try reflexivity; try discriminate E.
    unfold Go.ifaceEq in E. unfold Go.DeepEqual. rewrite type_eqb_sym.
    destruct (Go.type_eqb (Go.TypeOf y) (Go.TypeOf x)); [|discriminate E].
    destruct (Go.comparable (Go.TypeOf y)); [|discriminate E].
    injection E as E. rewrite deepValueEqual_sym.
    rewrite (valueEq_deepValueEqual y x E). reflexivity. }
  unfold assert.Equal, assert.EqualValues, assert.ObjectsAreEqualValues.
  rewrite D. reflexivity.
Qed.

Lemma CheckEquals_pass_implies_Equal_pass_witness :
  assert.Equal (Demo.in_method 14) (Some Demo.top) (Demo.point_at 3%nat) (Demo.point_at 3%nat) [] = done.
Proof.
  exact (CheckEquals_pass_implies_Equal_pass (Demo.in_method 14) Demo.top
           (Demo.point_at 3%nat) (Demo.point_at 3%nat) None [] eq_refl).
Defined.

(** X7. On values without pointers, slices or functions inside
    (booleans, integers, strings, structs of these) CheckEquals never
    panics and reports exactly when Equal does. *)
Theorem CheckEquals_agrees_with_Equal_on_plain_values
    (cs : runtime.stack) (t : testing.T) (x y : Go.value) (note : Go.iface) (msg : list string) :
  plain x = true ->
  plain y = true ->
  reports_failure t (assert.CheckEquals cs (Some t) (Some x) (Some y) note)
    = reports_failure t (assert.Equal cs (Some t) (Some x) (Some y) msg) /\
  panics (assert.CheckEquals cs (Some t) (Some x) (Some y) note) = false.
Proof.
  intros Hx Hy.
  rewrite Equal_reports, CheckEquals_reports, CheckEquals_panics.
  unfold Go.ifaceEq, Go.DeepEqual.
  rewrite (plain_comparable y Hy), (plain_valueEq y Hy x), (type_eqb_sym (Go.TypeOf y)),
    (deepValueEqual_sym y x).
  destruct (Go.type_eqb (Go.TypeOf x) (Go.TypeOf y)); [|auto].
  destruct (Go.deepValueEqual x y); auto.
Qed.

Lemma CheckEquals_agrees_with_Equal_on_plain_values_witness :
  let p := Go.VStruct "Point" [Go.VInt 1; Go.VInt 2] in
  let q := Go.VStruct "Point" [Go.VInt 1; Go.VInt 3] in
  reports_failure Demo.top (assert.CheckEquals (Demo.in_method 5) (Some Demo.top) (Some p) (Some q) None)
    = true /\
  reports_failure Demo.top (assert.CheckEquals (Demo.in_method 5) (Some Demo.top) (Some p) (Some p) None)
    = false.
Proof.
  cbv zeta. split.
  - rewrite (proj1 (CheckEquals_agrees_with_Equal_on_plain_values (Demo.in_method 5) Demo.top
               (Go.VStruct "Point" [Go.VInt 1; Go.VInt 2])
               (Go.VStruct "Point" [Go.VInt 1; Go.VInt 3]) None [] eq_refl eq_refl)).
    reflexivity.
  - rewrite (proj1 (CheckEquals_agrees_with_Equal_on_plain_values (Demo.in_method 5) Demo.top
               (Go.VStruct "Point" [Go.VInt 1; Go.VInt 2])
               (Go.VStruct "Point" [Go.VInt 1; Go.VInt 2]) None [] eq_refl eq_refl)).
    reflexivity.
Defined.

(** ** More on the runner *)


(** A test method that reflect cannot call with the receiver alone never
    returns to [t.Run]: reflect panics. *)
Lemma T_Run_of_method_with_parameters
    {S : Type} {suite_hasT : assert.hasT S}
    (t : testing.T) (m : reflect.Method (@assert.body S)) (s : S) :
  reflect.takes_receiver_alone m = false ->
  ending (snd (assert.T_Run t (assert.Name (record_of m)) (assert.F (record_of m)) s))
    = Panic "reflect: Call with too few input arguments".
Proof.
  intros Hn. rewrite T_Run_does. cbn [record_of assert.F assert.Name snd ending].
  unfold assert.Func_Call. rewrite Hn. reflexivity.
Qed.

(** X8. A suite without any method named Test...: Run binds the handle
    and does nothing else; not even the hooks are called. *)
Theorem Run_without_tests_only_binds
    {S : Type} {suite_hasT : assert.hasT S}
    (methods : list (reflect.Method (@assert.body S))) (t : testing.T) (suite : S) :
  test_names methods = [] ->
  assert.Run methods t suite = (assert.SetT suite t, done).
Proof.
  intros H. rewrite Run_unfolds, discover_from_nil.
  rewrite <- names_of_records in H.
  apply map_eq_nil in H. rewrite H. reflexivity.
Qed.

Lemma Run_without_tests_only_binds_witness :
  assert.Run Demo.idle Demo.top Demo.fresh
    = (assert.mkEmbedding (assert.mkTestSuite (Some Demo.top)) [], done).
Proof.
  exact (Run_without_tests_only_binds Demo.idle Demo.top Demo.fresh eq_refl).
Defined.

(** X9. Whatever the hooks and the tests do (return, fail fatally,
    panic), the calls Run has made at the end are an initial segment of
    the schedule: nothing is called out of turn, skipped or called
    twice. *)
Theorem Run_calls_follow_the_schedule
    {S : Type} {suite_hasT : assert.hasT S}
    (methods : list (reflect.Method (@assert.body S))) (t : testing.T) (suite : S) :
  exists rest,
    map Some (schedule methods t)
    = map callee_of (events (snd (assert.Run methods t suite))) ++ rest.
Proof.
  rewrite <- schedule_of_records, Run_unfolds. apply range_tests_prefix.
Qed.

(** X10. Run returns only after the whole schedule: when it returns,
    every record was run in its bracket, and every test method is one
    that reflect can call with the receiver alone: it has no parameter
    of its own, or a single variadic one (reflect would have panicked on
    any other). *)
Theorem Run_returns_only_after_every_test
    {S : Type} {suite_hasT : assert.hasT S}
    (methods : list (reflect.Method (@assert.body S))) (t : testing.T) (suite : S) :
  ending (snd (assert.Run methods t suite)) = Return ->
  map callee_of (events (snd (assert.Run methods t suite))) = map Some (schedule methods t) /\
  forall m, In m methods -> is_test m = true ->
    reflect.NumIn m = 0%nat \/ (reflect.IsVariadic m = true /\ reflect.NumIn m = 1%nat).
Proof.
  rewrite Run_unfolds. intros H.
  apply range_tests_returned in H as [Hshape [_ Heach]].
  split.
  - rewrite Hshape. rewrite schedule_of_records. reflexivity.
  - intros m Hin Hm.
    destruct (reflect.takes_receiver_alone m) eqn:E.
    + unfold reflect.takes_receiver_alone in E.
      destruct (reflect.IsVariadic m).
      * apply Nat.leb_le in E. destruct (reflect.NumIn m) as [|[|k]]; [left | right | lia]; auto.
      * apply Nat.eqb_eq in E. left. exact E.
    + destruct (Heach (record_of m)) as [s' Hs'].
      * rewrite discover_from_nil. apply in_map, filter_In. auto.
      * rewrite (T_Run_of_method_with_parameters t m s' E) in Hs'. discriminate Hs'.
Qed.

Lemma Run_returns_only_after_every_test_witness :
  map callee_of (events (snd (assert.Run Demo.variadic Demo.top Demo.fresh)))
    = [Some (SubTest Demo.top "TestV")] /\
  ending (snd (assert.Run Demo.with_parameter Demo.top Demo.fresh))
    = Panic "reflect: Call with too few input arguments".
Proof.
  split; [|reflexivity].
  exact (proj1 (Run_returns_only_after_every_test Demo.variadic Demo.top Demo.fresh eq_refl)).
Defined.

(** X11. A fatal failure in the first test method: when SetupTest (if
    the suite has it) returns and the method then ends through FailNow
    on the handle Run was given, Run ends the same way right there.  Its
    calls are SetupTest and the sub-test: no TearDownTest, no other
    test. *)
Theorem Run_ends_at_a_fatal_test
    {S : Type} {suite_hasT : assert.hasT S}
    (methods others : list (reflect.Method (@assert.body S)))
    (m : reflect.Method (@assert.body S)) (t : testing.T) (suite after_setup : S) :
  filter is_test methods = m :: others ->
  match assert.implements methods "SetupTest" with
  | Some f => ending (snd (f (assert.SetT suite t))) = Return /\
              after_setup = fst (f (assert.SetT suite t))
  | None => after_setup = assert.SetT suite t
  end ->
  ending (snd (assert.Func_Call m after_setup)) = Goexit t ->
  ending (snd (assert.Run methods t suite)) = Goexit t /\
  map callee_of (events (snd (assert.Run methods t suite))) =
    map Some ((if has_hook methods "SetupTest" then [SetupTest] else [])
              ++ [SubTest t (reflect.Name m)]) /\
  fst (assert.Run methods t suite) = fst (assert.Func_Call m after_setup).
Proof.
  intros Hm Hsetup Hfatal.
  rewrite Run_unfolds, discover_from_nil, Hm. unfold has_hook.
  cbn [map assert.range_tests].
  set (rest := assert.seq _ (assert.range_tests _ _ _ _)).
  set (s0 := assert.SetT suite t) in *.
  assert (Hrun : forall s,
            ending (snd (assert.Func_Call m s)) = Goexit t ->
            assert.seq (assert.T_Run t (assert.Name (record_of m)) (assert.F (record_of m)))
                       rest s
            = assert.T_Run t (assert.Name (record_of m)) (assert.F (record_of m)) s).
  { intros s Hs. apply seq_stopping.
    rewrite (T_Run_after_FailNow_on_parent t _ (assert.F (record_of m)) s Hs).
    discriminate. }
  destruct (assert.implements methods "SetupTest") as [f|].
  - destruct Hsetup as [Hret ->].
    assert (E : ending (snd (assert.call SetupTest f s0)) = Return)
      by (rewrite call_does; exact Hret).
    rewrite (seq_returning _ _ _ E), call_does. cbn [fst snd events ending].
    rewrite (Hrun _ Hfatal), T_Run_does. cbn [fst snd events ending].
    split; [|split; reflexivity].
    pose proof (T_Run_after_FailNow_on_parent t (reflect.Name m)
                  (assert.F (record_of m)) _ Hfatal) as HT.
    rewrite T_Run_does in HT. exact HT.
  - subst after_setup.
    rewrite (seq_returning _ _ _ (eq_refl : ending (snd (assert.ret s0)) = Return)).
    cbn [assert.ret fst snd events ending done app].
    rewrite (Hrun _ Hfatal), T_Run_does. cbn [fst snd events ending].
    split; [|split; reflexivity].
    pose proof (T_Run_after_FailNow_on_parent t (reflect.Name m)
                  (assert.F (record_of m)) _ Hfatal) as HT.
    rewrite T_Run_does in HT. exact HT.
Qed.

Lemma Run_ends_at_a_fatal_test_witness :
  ending (snd (assert.Run Demo.fatal Demo.top Demo.fresh)) = Goexit Demo.top /\
  map callee_of (events (snd (assert.Run Demo.fatal Demo.top Demo.fresh)))
    = [Some SetupTest; Some (SubTest Demo.top "TestA")].
Proof.
  pose proof (Run_ends_at_a_fatal_test Demo.fatal
                [Demo.method "TestB" (Demo.note "b")]
                (Demo.method "TestA"
                   (assert.seq (Demo.note "a1")
                      (assert.seq
                         (Demo.with_T (fun h => assert.Fail (Demo.in_method 31) h "stop"))
                         (Demo.note "a2"))))
                Demo.top Demo.fresh
                (assert.mkEmbedding (assert.mkTestSuite (Some Demo.top)) ["setup"%string])
                eq_refl (conj eq_refl eq_refl) eq_refl) as [Hend [Hcalls _]].
  split; [exact Hend | exact Hcalls].
Defined.

Lemma implements_needs_the_signature
    {S : Type} {suite_hasT : assert.hasT S}
    (methods : list (reflect.Method (@assert.body S))) (name : string)
    (m : reflect.Method (@assert.body S)) :
  find (fun x => String.eqb (reflect.Name x) name) methods = Some m ->
  reflect.NumIn m <> 0%nat \/ reflect.NumOut m <> 0%nat ->
  assert.implements methods name = None.
Proof.
  intros Hfind Hsig. unfold assert.implements. rewrite Hfind.
  destruct (Nat.eqb_spec (reflect.NumIn m) 0), (Nat.eqb_spec (reflect.NumOut m) 0);
    try reflexivity.
  destruct Hsig; contradiction.
Qed.

(** X12. A method named SetupTest (or TearDownTest) that takes
    parameters or returns results does not make the suite a
    [hasSetupTest] ([hasTearDown]): Run never calls it as a hook, and
    its name keeps it from being run as a test. *)
Theorem Run_ignores_hooks_of_another_signature
    {S : Type} {suite_hasT : assert.hasT S}
    (methods : list (reflect.Method (@assert.body S))) (t : testing.T) (suite : S)
    (m : reflect.Method (@assert.body S)) :
  reflect.NumIn m <> 0%nat \/ reflect.NumOut m <> 0%nat ->
  (find (fun x => String.eqb (reflect.Name x) "SetupTest") methods = Some m ->
   existsb calls_SetupTest (events (snd (assert.Run methods t suite))) = false) /\
  (find (fun x => String.eqb (reflect.Name x) "TearDownTest") methods = Some m ->
   existsb calls_TearDownTest (events (snd (assert.Run methods t suite))) = false) /\
  (reflect.Name m = "SetupTest"%string \/ reflect.Name m = "TearDownTest"%string ->
   is_test m = false).
Proof.
  intros Hsig. split; [|split].
  - intros Hfind. apply (no_call_of_missing_SetupTest methods t).
    + unfold has_hook. rewrite (implements_needs_the_signature _ _ _ Hfind Hsig). reflexivity.
    + apply Run_calls_of_suite.
  - intros Hfind. apply (no_call_of_missing_TearDownTest methods t).
    + unfold has_hook. rewrite (implements_needs_the_signature _ _ _ Hfind Hsig). reflexivity.
    + apply Run_calls_of_suite.
  - unfold is_test. intros [-> | ->]; reflexivity.
Qed.

Lemma Run_ignores_hooks_of_another_signature_witness :
  map callee_of (events (snd (assert.Run Demo.misdeclared Demo.top Demo.fresh)))
    = [Some (SubTest Demo.top "TestA")] /\
  existsb calls_SetupTest (events (snd (assert.Run Demo.misdeclared Demo.top Demo.fresh)))
    = false.
Proof.
  split; [reflexivity|].
  exact (proj1 (Run_ignores_hooks_of_another_signature Demo.misdeclared Demo.top Demo.fresh
                  (reflect.mkMethod "SetupTest" 0 1 false (Demo.note "setup"))
                  (or_intror (fun H => Nat.neq_succ_0 0 H)))
               eq_refl).
Defined.
